(** * Sales report automation: the CSV loader and the statistics aggregator

    A shallow embedding of [read_sales_csv] and [calculate_statistics] of
    [src/main.py], and the properties of the report they build.

    Python values are modelled as the code has them:
    - a [float] is an IEEE 754 binary64 number, Rocq's primitive [float];
    - an [int] is an unbounded integer, [Z];
    - a [dict] is an association list in insertion order (Python dicts keep
      the order in which keys were first inserted, and the code relies on
      it when it breaks ties);
    - an exception raised inside the [try] block is a value of [exn], and
      the [except Exception] handler turns it into the error report. *)

From Stdlib Require Import ZArith List String Ascii Bool Lia.
From Stdlib Require Import Floats DecimalString.
From Stdlib Require Uint63 DecimalN DecimalPos.
From Stdlib Require Import Sorting.Permutation.
Import ListNotations.

Local Open Scope string_scope.
Local Open Scope list_scope.

(* ------------------------------------------------------------------ *)
(** * Rows as [csv.DictReader] yields them *)

(** A cell of a row read under a header name: a [str], or [None] when the
    line was shorter than the header ([restval]). *)
Definition cell := option string.

(** One row. [fields] are the entries under the header names, in header
    order; [surplus] is the list [csv.DictReader] stores under the key
    [None] when the line was longer than the header ([restkey]). *)
Record Row := mkRow {
  fields : list (string * cell);
  surplus : option (list string)
}.

(** [row[key]] for a string key: [None] here stands for [KeyError]. *)
Fixpoint assoc {V : Type} (key : string) (d : list (string * V)) : option V :=
  match d with
  | [] => None
  | (k, v) :: rest => if String.eqb k key then Some v else assoc key rest
  end.

(** [list(row.keys())]: header names, then the key [None] if there is a
    surplus. *)
Definition row_keys (row : Row) : list (option string) :=
  map (fun kv => Some (fst kv)) (fields row)
  ++ match surplus row with Some _ => [None] | None => [] end.

(* ------------------------------------------------------------------ *)
(** * Exceptions and the error monad of the [try] blocks *)

Inductive exn :=
| FileError (detail : string)      (* whatever [open] or [csv] raised *)
| KeyError (key : string)          (* [row[key]] on an absent column *)
| FloatValueError (arg : string)   (* [float(s)] on a string it rejects *)
| FloatTypeError                   (* [float(None)] *)
| IntValueError (arg : string)     (* [int(s)] on a string it rejects *)
| IntTypeError                     (* [int(None)] *)
| MaxEmptyError                    (* [max()] of an empty sequence, a ValueError *)
| ZeroDivisionError                (* float division by zero *)
| IntDigitsError.                  (* an int too long to print, a ValueError *)

(** A computation inside [try]: it raises or it returns. *)
Definition comp (A : Type) := (exn + A)%type.

Definition ret {A} (a : A) : comp A := inr a.
Definition raise {A} (e : exn) : comp A := inl e.
Definition bind {A B} (c : comp A) (k : A -> comp B) : comp B :=
  match c with
  | inl e => inl e
  | inr a => k a
  end.

Notation "x <- c ;; k" := (bind c (fun x => k))
  (at level 61, c at next level, right associativity).

(** Evaluating [f(x) for x in xs] from left to right; the first exception
    ends the evaluation. *)
Fixpoint mapM {A B} (f : A -> comp B) (xs : list A) : comp (list B) :=
  match xs with
  | [] => ret []
  | x :: rest => y <- f x ;; ys <- mapM f rest ;; ret (y :: ys)
  end.

(** What the two tools return: the JSON document, before [json.dumps]
    prints it. [Failure prefix e] is [{"error": f"{prefix}{str(e)}"}] and
    [FailureMsg s] is [{"error": s}]. *)
Inductive outcome (A : Type) :=
| Success (payload : A)
| FailureMsg (message : string)
| Failure (prefix : string) (e : exn).
Arguments Success {A} payload.
Arguments FailureMsg {A} message.
Arguments Failure {A} prefix e.

(* ------------------------------------------------------------------ *)
(** * The interpreter and the file system *)

(** What the code takes from outside the repository: the rows that
    [list(csv.DictReader(open(file_path)))] yields for a path (or the
    text of the exception it raises), and the parsers behind [float(s)]
    and [int(s)] on a string ([None] is the [ValueError] of a rejected
    string); and two traits of the interpreter that runs it: whether
    [sum] over floats carries a correction term (CPython from 3.12 on), and
    the limit on the digits of an int that is printed
    ([sys.get_int_max_str_digits()]: 4300 unless configured, 0 where there
    is no limit). *)
Record Env := mkEnv {
  load_rows : string -> string + list Row;
  float_of_str : string -> option float;
  int_of_str : string -> option Z;
  compensated_sum : bool;
  int_max_str_digits : Z
}.

(** The first statements of both tools:
[[
    with open(file_path, 'r') as f:
        reader = csv.DictReader(f)
        rows = list(reader)
]] *)
Definition open_csv (E : Env) (file_path : string) : comp (list Row) :=
  match load_rows E file_path with
  | inl detail => raise (FileError detail)
  | inr rows => ret rows
  end.

(* ------------------------------------------------------------------ *)
(** * Floats: sums and the format [f"${v:,.2f}"] *)

(** A running total: the items are added to 0 from left to right, each
    addition rounded. This is what [acc = acc + x] computes in a loop, and
    what [sum] over floats computes up to CPython 3.11. *)
Definition running_sum (xs : list float) : float :=
  fold_left PrimFloat.add xs 0%float.

(** [sum] over floats from CPython 3.12 on (Neumaier's summation): beside
    the running total [total] it keeps the rounding errors of the
    additions in [c], and adds [c] at the end unless it is zero or not
    finite.
[[
    double t = f_result + x;
    if (fabs(f_result) >= fabs(x)) c += (f_result - t) + x;
    else                           c += (x - t) + f_result;
    f_result = t;
    ...
    if (c && Py_IS_FINITE(c)) f_result += c;
]] *)
Fixpoint compensated (total c : float) (xs : list float) : float :=
  match xs with
  | [] =>
      if negb (c =? 0)%float && is_finite c then (total + c)%float
      else total
  | x :: rest =>
      let t := (total + x)%float in
      let c' :=
        if (abs x <=? abs total)%float
        then (c + ((total - t) + x))%float
        else (c + ((x - t) + total))%float in
      compensated t c' rest
  end.

(** [sum(xs)] over floats. The first item is added to the int 0 as any
    two numbers are; with it the float loop starts. *)
Definition py_sum (E : Env) (xs : list float) : float :=
  if compensated_sum E then
    match xs with
    | [] => 0%float
    | x :: rest => compensated (0 + x)%float 0%float rest
    end
  else running_sum xs.

(** [sum(xs)] over ints. *)
Definition py_sum_int (xs : list Z) : Z :=
  fold_left Z.add xs 0%Z.

(** [float(n)] for a list length (lengths stay far below [2^63]). *)
Definition float_of_nat (n : nat) : float :=
  PrimFloat.of_uint63 (Uint63.of_Z (Z.of_nat n)).

(** [float(n)] for an int [0 <= n < 2^63]: the binary64 number nearest to
    [n], which is [n] itself below [2^53]. *)
Definition float_of_Z (n : Z) : float :=
  PrimFloat.of_uint63 (Uint63.of_Z n).

(** The decimal digits of a natural number. *)
Definition digits_of (n : Z) : string :=
  NilEmpty.string_of_uint (N.to_uint (Z.to_N n)).

(** The [,] option: a comma before every group of three digits, counted
    from the right. [n] is the number of digits that follow. *)
Fixpoint group_thousands (s : string) : string :=
  match s with
  | EmptyString => EmptyString
  | String c rest =>
      let n := String.length rest in
      if andb (Nat.eqb (Nat.modulo n 3) 0) (negb (Nat.eqb n 0))
      then String c (String "," (group_thousands rest))
      else String c (group_thousands rest)
  end.

(** Two digits, zero padded. *)
Definition two_digits (n : Z) : string :=
  if (n <? 10)%Z then "0" ++ digits_of n else digits_of n.

(** Hundredths in [m * 2^e], rounded to the nearest integer, ties to even:
    the correctly rounded conversion that [.2f] performs. *)
Definition round_cents (m : positive) (e : Z) : Z :=
  let num := (Zpos m * 100)%Z in
  match e with
  | Zneg p =>
      let den := Z.pow_pos 2 p in
      let q := (num / den)%Z in
      let r := (num mod den)%Z in
      match (2 * r ?= den)%Z with
      | Lt => q
      | Gt => (q + 1)%Z
      | Eq => if Z.even q then q else (q + 1)%Z
      end
  | _ => (num * 2 ^ e)%Z
  end.

Definition sign_str (s : bool) : string :=
  if s then "-" else EmptyString.

(** [f"{v:,.2f}"]. *)
Definition format_2f (v : float) : string :=
  match Prim2SF v with
  | S754_nan => "nan"
  | S754_infinity s => sign_str s ++ "inf"
  | S754_zero s => sign_str s ++ "0.00"
  | S754_finite s m e =>
      let c := round_cents m e in
      sign_str s ++ group_thousands (digits_of (c / 100)) ++ "."
      ++ two_digits (c mod 100)
  end.

(** [f"${v:,.2f}"]. *)
Definition fmt_money (v : float) : string := "$" ++ format_2f v.

(* ------------------------------------------------------------------ *)
(** * Python operations the two tools use *)

(** [row[key]]. *)
Definition getitem (row : Row) (key : string) : comp cell :=
  match assoc key (fields row) with
  | Some v => ret v
  | None => raise (KeyError key)
  end.

(** [row.get(key, default)]. *)
Definition py_get (row : Row) (key : string) (default : cell) : cell :=
  match assoc key (fields row) with
  | Some v => v
  | None => default
  end.

(** [float(v)] and [int(v)] on a cell. *)
Definition py_float (E : Env) (v : cell) : comp float :=
  match v with
  | None => raise FloatTypeError
  | Some s =>
      match float_of_str E s with
      | Some x => ret x
      | None => raise (FloatValueError s)
      end
  end.

Definition py_int (E : Env) (v : cell) : comp Z :=
  match v with
  | None => raise IntTypeError
  | Some s =>
      match int_of_str E s with
      | Some n => ret n
      | None => raise (IntValueError s)
      end
  end.

(** Equality of dict keys (a [str] or [None]). *)
Definition cell_eqb (a b : cell) : bool :=
  match a, b with
  | Some x, Some y => String.eqb x y
  | None, None => true
  | _, _ => false
  end.

(** A dict keyed by group name, as the list of its items in insertion
    order. *)
Definition dict (V : Type) := list (cell * V).

(** [d.get(key, default)]. *)
Fixpoint dict_get {V} (key : cell) (d : dict V) (default : V) : V :=
  match d with
  | [] => default
  | (k, v) :: rest => if cell_eqb k key then v else dict_get key rest default
  end.

(** [d[key] = v]: a present key keeps its place, a new key goes last. *)
Fixpoint dict_set {V} (key : cell) (v : V) (d : dict V) : dict V :=
  match d with
  | [] => [(key, v)]
  | (k, w) :: rest =>
      if cell_eqb k key then (k, v) :: rest else (k, w) :: dict_set key v rest
  end.

(** [rows[:n]] and [rows[-n:]] (for [n > 0]). *)
Definition slice_to {A} (n : nat) (l : list A) : list A := firstn n l.
Definition slice_last {A} (n : nat) (l : list A) : list A :=
  skipn (List.length l - n) l.

(** [max(items, key=lambda x: x[1])]: the running maximum is replaced only
    by an item whose value is greater, so the first maximal item wins. *)
Fixpoint max_from (best : cell * float) (items : list (cell * float))
  : cell * float :=
  match items with
  | [] => best
  | it :: rest =>
      if (snd best <? snd it)%float then max_from it rest
      else max_from best rest
  end.

Definition py_max (items : list (cell * float)) : comp (cell * float) :=
  match items with
  | [] => raise MaxEmptyError
  | it :: rest => ret (max_from it rest)
  end.

(** [sorted(items, key=lambda x: x[1], reverse=True)].

    Python reverses the list, sorts it ascending and stably with [<] on the
    keys, and reverses the outcome. The ascending sort is written here as
    an insertion sort: on keys that [<] orders totally (floats other than
    [nan]) every stable sort returns the same list; and a list in which no
    item is less than the item before it comes back as it is, as it does
    from Python's sort, which finds it to be a single run. On any other
    list with a [nan] key the order Python's sort leaves depends on the
    comparisons its merge strategy makes, and the insertion sort may
    differ from it: what is proved of the order of a breakdown is proved
    for finite revenues, or shown on a list of the second kind. *)
Fixpoint insert_asc (x : cell * float) (l : list (cell * float))
  : list (cell * float) :=
  match l with
  | [] => [x]
  | y :: rest =>
      if (snd y <? snd x)%float then y :: insert_asc x rest else x :: l
  end.

Definition sort_asc (l : list (cell * float)) : list (cell * float) :=
  fold_right insert_asc [] l.

Definition sorted_desc (items : list (cell * float)) : list (cell * float) :=
  rev (sort_asc (rev items)).

(** [{k: f"${v:,.2f}" for k, v in items}]. *)
Definition format_items (items : list (cell * float)) : dict string :=
  fold_left (fun d kv => dict_set (fst kv) (fmt_money (snd kv)) d) items [].

(** [total / n] for a float and a list length. *)
Definition py_div (total : float) (n : nat) : comp float :=
  match n with
  | O => raise ZeroDivisionError
  | S _ => ret (total / float_of_nat n)%float
  end.

(** Printing an int ([str], [repr], [json.dumps]) raises [ValueError]
    when the int has more decimal digits than the interpreter's limit; the
    limit is not applied to ints of 640 digits or less. *)
Definition decimal_digits (n : Z) : Z :=
  Z.of_nat (String.length (digits_of (Z.abs n))).

Definition int_prints (E : Env) (n : Z) : bool :=
  (int_max_str_digits E <=? 0)%Z
  || (decimal_digits n <=? Z.max (int_max_str_digits E) 640)%Z.

(** The [try ... except Exception as e] of both tools. *)
Definition try_except {A} (prefix : string) (body : comp A) : outcome A :=
  match body with
  | inl e => Failure prefix e
  | inr a => Success a
  end.

(* ------------------------------------------------------------------ *)
(** * [read_sales_csv] *)

Record DateRange := mkDateRange {
  first : cell;
  last : cell
}.

Record Summary := mkSummary {
  total_rows : nat;
  columns : list (option string);
  sample_data : list Row;
  date_range : DateRange
}.

Definition read_sales_csv (E : Env) (file_path : string) : outcome Summary :=
  match open_csv E file_path with
  | inl e => Failure "Failed to read CSV: " e
  | inr rows =>
      match rows with
      | [] => FailureMsg "CSV file is empty"
      | row0 :: _ =>
          let columns := row_keys row0 in
          let sample_rows :=
            if Nat.ltb 10 (List.length rows)
            then slice_to 5 rows ++ slice_last 5 rows
            else rows in
          Success {|
            total_rows := List.length rows;
            columns := columns;
            sample_data := sample_rows;
            date_range := {|
              first := py_get row0 "Date" (Some "N/A");
              last := py_get (List.last rows row0) "Date" (Some "N/A")
            |}
          |}
      end
  end.

(* ------------------------------------------------------------------ *)
(** * [calculate_statistics] *)

Record TopEntry := mkTop {
  name : cell;
  revenue : string
}.

Record Stats := mkStats {
  total_revenue : string;
  total_units_sold : Z;
  average_revenue_per_transaction : string;
  number_of_transactions : nat;
  top_region : TopEntry;
  top_product : TopEntry;
  top_salesperson : TopEntry;
  region_breakdown : dict string;
  product_breakdown : dict string;
  salesperson_breakdown : dict string
}.

(** [float(row['Revenue'])] and [int(row['Units_Sold'])]. *)
Definition row_revenue (E : Env) (row : Row) : comp float :=
  c <- getitem row "Revenue" ;; py_float E c.

Definition row_units (E : Env) (row : Row) : comp Z :=
  c <- getitem row "Units_Sold" ;; py_int E c.

(** The three grouping loops, for the column [col]:
[[
    for row in rows:
        key = row[col]
        revenue = float(row['Revenue'])
        acc[key] = acc.get(key, 0) + revenue
]] *)
Fixpoint revenue_by (E : Env) (col : string) (rows : list Row)
  (acc : dict float) : comp (dict float) :=
  match rows with
  | [] => ret acc
  | row :: rest =>
      key <- getitem row col ;;
      revenue <- row_revenue E row ;;
      revenue_by E col rest
        (dict_set key (dict_get key acc 0 + revenue)%float acc)
  end.

Definition top_entry (top : cell * float) : TopEntry :=
  {| name := fst top; revenue := fmt_money (snd top) |}.

(** [json.dumps(stats, indent=2)], the last statement inside the [try].
    The report holds strings and two ints; of these only the unit total
    can be too long to print (the number of rows is far shorter than 640
    digits). The value returned stands for the printed document. *)
Definition json_dumps (E : Env) (stats : Stats) : comp Stats :=
  if int_prints E (total_units_sold stats) then ret stats
  else raise IntDigitsError.

Definition statistics (E : Env) (file_path : string) : comp Stats :=
  rows <- open_csv E file_path ;;
  revenues <- mapM (row_revenue E) rows ;;
  let total_revenue := py_sum E revenues in
  units <- mapM (row_units E) rows ;;
  let total_units := py_sum_int units in
  region_revenue <- revenue_by E "Region" rows [] ;;
  product_revenue <- revenue_by E "Product" rows [] ;;
  salesperson_revenue <- revenue_by E "Salesperson" rows [] ;;
  top_region <- py_max region_revenue ;;
  top_product <- py_max product_revenue ;;
  top_salesperson <- py_max salesperson_revenue ;;
  average <- py_div total_revenue (List.length rows) ;;
  json_dumps E {|
    total_revenue := fmt_money total_revenue;
    total_units_sold := total_units;
    average_revenue_per_transaction := fmt_money average;
    number_of_transactions := List.length rows;
    top_region := top_entry top_region;
    top_product := top_entry top_product;
    top_salesperson := top_entry top_salesperson;
    region_breakdown := format_items (sorted_desc region_revenue);
    product_breakdown := format_items (sorted_desc product_revenue);
    salesperson_breakdown := format_items (sorted_desc salesperson_revenue)
  |}.

Definition calculate_statistics (E : Env) (file_path : string)
  : outcome Stats :=
  try_except "Failed to calculate statistics: " (statistics E file_path).

(* ------------------------------------------------------------------ *)
(** * A sample interpreter *)

(** Unsigned decimal literals of at most 15 digits, on which [float] and
    [int] agree with Python and the float is exact; and the literal
    [nan]. Every other string is rejected. *)
Fixpoint digits_value (s : string) (acc : Z) : option Z :=
  match s with
  | EmptyString => Some acc
  | String c rest =>
      let n := Z.of_nat (nat_of_ascii c) in
      if andb (48 <=? n)%Z (n <=? 57)%Z
      then digits_value rest (10 * acc + (n - 48))%Z
      else None
  end.

Definition sample_int (s : string) : option Z :=
  if andb (Nat.ltb 0 (String.length s)) (Nat.leb (String.length s) 15)
  then digits_value s 0
  else None.

Definition sample_float (s : string) : option float :=
  if String.eqb s "nan" then Some nan
  else option_map (fun n => PrimFloat.of_uint63 (Uint63.of_Z n)) (sample_int s).

(** An interpreter in which every path holds the given rows: its [sum]
    is the running total, its digit limit the default. *)
Definition sample_env (rows : list Row) : Env :=
  {| load_rows := fun _ => inr rows;
     float_of_str := sample_float;
     int_of_str := sample_int;
     compensated_sum := false;
     int_max_str_digits := 4300 |}.

(** A row made of header cells only. *)
Definition row_of (cells : list (string * string)) : Row :=
  {| fields := map (fun kv => (fst kv, Some (snd kv))) cells;
     surplus := None |}.

Definition sale (region product person rev units : string) : Row :=
  row_of [("Date", "2025-11-17"); ("Region", region); ("Product", product);
          ("Salesperson", person); ("Revenue", rev); ("Units_Sold", units)].

(* ------------------------------------------------------------------ *)
(** * The notions the properties are stated with *)

(** What one pass of a grouping loop reads from a row: the group key and
    the revenue. *)
Definition entry (E : Env) (col : string) (row : Row) : comp (cell * float) :=
  key <- getitem row col ;;
  revenue <- row_revenue E row ;;
  ret (key, revenue).

Definition entries (E : Env) (col : string) (rows : list Row)
  : comp (list (cell * float)) :=
  mapM (entry E col) rows.

(** The grouping loop over entries already read. *)
Definition accumulate (es : list (cell * float)) (acc : dict float)
  : dict float :=
  fold_left
    (fun acc e => dict_set (fst e) (dict_get (fst e) acc 0 + snd e)%float acc)
    es acc.

(** The summed revenue of a group, in the spec's words: the sum of the
    revenues of the rows of that group, in row order. *)
Definition summed_revenue (key : cell) (es : list (cell * float)) : float :=
  running_sum (map snd (filter (fun e => cell_eqb (fst e) key) es)).

(** The columns the aggregator reads. *)
Definition required_columns : list string :=
  ["Revenue"; "Units_Sold"; "Region"; "Product"; "Salesperson"].

Definition succeeds {A} (c : comp A) : bool :=
  match c with inr _ => true | inl _ => false end.

(** A row the aggregator can process: every required column is present,
    [Revenue] is accepted by [float] and [Units_Sold] by [int]. *)
Definition complete_row (E : Env) (row : Row) : bool :=
  succeeds (row_revenue E row) && succeeds (row_units E row)
  && succeeds (getitem row "Region") && succeeds (getitem row "Product")
  && succeeds (getitem row "Salesperson").

(** The units of the rows can be read, and their total can be printed. *)
Definition printable_units (E : Env) (rows : list Row) : bool :=
  match mapM (row_units E) rows with
  | inr units => int_prints E (py_sum_int units)
  | inl _ => false
  end.

(** The revenue of the row is a finite number (not [nan], not an
    infinity). *)
Definition finite_revenue (E : Env) (row : Row) : bool :=
  match row_revenue E row with
  | inr v => is_finite v
  | inl _ => false
  end.

(** [a] is a float other than [nan]. *)
Definition number (x : float) : Prop := Prim2SF x <> S754_nan.

Definition SFfinite (x : spec_float) : bool :=
  match x with
  | S754_zero _ | S754_finite _ _ _ => true
  | _ => false
  end.

(** Every pair of neighbours of a list is related. *)
Fixpoint chain {A} (R : A -> A -> Prop) (l : list A) : Prop :=
  match l with
  | a :: (b :: _) as rest => R a b /\ chain R rest
  | _ => True
  end.

(** Dict values that are numbers, entries whose revenues are finite. *)
Definition number_values (d : dict float) : Prop :=
  Forall (fun kv => number (snd kv)) d.

Definition finite_values (es : list (cell * float)) : Prop :=
  Forall (fun e => is_finite (snd e) = true) es.

(** No item is less than the one before it; no item is greater than the
    one before it. *)
Definition ascending (l : list (cell * float)) : Prop :=
  chain (fun a b => (snd b <? snd a)%float = false) l.

Definition descending (l : list (cell * float)) : Prop :=
  chain (fun a b => (snd a <? snd b)%float = false) l.

(** [needle in hay]. *)
Fixpoint contains (needle hay : string) : bool :=
  String.prefix needle hay
  || match hay with
     | EmptyString => false
     | String _ rest => contains needle rest
     end.

(** The row holds the string [value] in the column [col]. *)
Definition holds (row : Row) (col value : string) : Prop :=
  assoc col (fields row) = Some (Some value).


(** The top entry of a grouping, against the entries [es] the loop read:
    it reports the summed revenue of its key, no key has a greater sum,
    and every entry before the first entry of its key belongs to a key
    with a smaller sum (so among the keys with the greatest sum it is the
    first one seen). *)
Definition first_maximum (es : list (cell * float)) (top : TopEntry) : Prop :=
  revenue top = fmt_money (summed_revenue (name top) es)
  /\ (forall key, In key (map fst es) ->
        (summed_revenue key es <=? summed_revenue (name top) es)%float = true)
  /\ exists pre x post,
       es = pre ++ (name top, x) :: post
       /\ forall e, In e pre ->
            (summed_revenue (fst e) es
               <? summed_revenue (name top) es)%float = true.

(** Every entry of a breakdown shows the summed revenue of its key. *)
Definition shows_sums (es : list (cell * float)) (breakdown : dict string)
  : Prop :=
  forall key s, In (key, s) breakdown ->
    In key (map fst es) /\ s = fmt_money (summed_revenue key es).

(** Neighbouring entries of a breakdown: the earlier sum is greater than
    the later one, or not less than it. *)
Definition strictly_descending (es : list (cell * float))
  (breakdown : dict string) : Prop :=
  forall pre k1 s1 k2 s2 post,
    breakdown = pre ++ (k1, s1) :: (k2, s2) :: post ->
    (summed_revenue k2 es <? summed_revenue k1 es)%float = true.

Definition weakly_descending (es : list (cell * float))
  (breakdown : dict string) : Prop :=
  forall pre k1 s1 k2 s2 post,
    breakdown = pre ++ (k1, s1) :: (k2, s2) :: post ->
    (summed_revenue k2 es <=? summed_revenue k1 es)%float = true.

(** The top entry is the first entry of the breakdown, and the breakdown
    maps its name to its revenue. *)
Definition heads (top : TopEntry) (breakdown : dict string) : Prop :=
  hd_error breakdown = Some (name top, revenue top)
  /\ forall default, dict_get (name top) breakdown default = revenue top.

(** ** Sample datasets *)

(** Two regions with the same revenue. *)
Definition tied_sales : list Row :=
  [sale "East" "Widget" "Ann" "50" "1"; sale "West" "Gadget" "Bob" "50" "2"].

(** A revenue that parses to [nan]. *)
Definition nan_sales : list Row :=
  [sale "a" "Widget" "Ann" "1" "1"; sale "b" "Gadget" "Bob" "nan" "2";
   sale "c" "Widget" "Cy" "2" "3"].

(** The three rows of the spec's example, as they are written there. *)
Definition example_rows : list Row :=
  [row_of [("Region", "East"); ("Revenue", "100")];
   row_of [("Region", "West"); ("Revenue", "50")];
   row_of [("Region", "East"); ("Revenue", "30")]].

(** The same three sales with every required column. *)
Definition example_sales : list Row :=
  [sale "East" "Widget" "Ann" "100" "1"; sale "West" "Gadget" "Bob" "50" "2";
   sale "East" "Widget" "Cy" "30" "3"].


(** A line with two fields under a header of five: the cells of the
    trailing columns are [None]. *)
Definition short_line : Row :=
  {| fields := [("Revenue", Some "100"); ("Units_Sold", Some "1");
                ("Region", None); ("Product", None); ("Salesperson", None)];
     surplus := None |}.

(** Rows numbered from 1, for the preview. *)
Definition numbered (n : nat) : list Row :=
  map (fun i => row_of [("Date", "2025-11-17");
                        ("Id", digits_of (Z.of_nat i))]) (seq 1 n).

(** ** Further notions: order of appearance, agreement of rows *)

(** [x] stands before [y] in the list. *)
Definition precedes {A} (x y : A) (l : list A) : Prop :=
  exists l1 l2 l3, l = l1 ++ x :: l2 ++ y :: l3.

(** The rows show the key [k] before they show the key [k']: nothing
    before the first entry of [k] belongs to [k']. *)
Definition seen_before (k k' : cell) (es : list (cell * float)) : Prop :=
  exists pre x post, es = pre ++ (k, x) :: post /\ ~ In k' (map fst pre).

(** Two rows agree on the columns the aggregator reads. *)
Definition same_required (r r' : Row) : Prop :=
  forall col, In col required_columns ->
    assoc col (fields r) = assoc col (fields r').

(** The outcome is the error value of a division by zero. *)
Definition reports_zero_division {A} (o : outcome A) : bool :=
  match o with
  | Failure _ ZeroDivisionError => true
  | _ => false
  end.

(** A breakdown lists the groups of the entries [es]: every key once,
    exactly the keys of the entries, each with its summed revenue. *)
Definition lists_groups (es : list (cell * float)) (breakdown : dict string)
  : Prop :=
  NoDup (map fst breakdown)
  /\ (forall key, In key (map fst breakdown) <-> In key (map fst es))
  /\ shows_sums es breakdown.

(** Of two entries of a breakdown the earlier one has the greater sum, or
    its key was seen first. *)
Definition ties_in_first_seen_order (es : list (cell * float))
  (breakdown : dict string) : Prop :=
  forall k1 s1 k2 s2,
    precedes (k1, s1) (k2, s2) breakdown ->
    (summed_revenue k2 es <? summed_revenue k1 es)%float = true
    \/ seen_before k1 k2 es.

(** An interpreter for which no file can be read. *)
Definition unreadable_env : Env :=
  {| load_rows := fun _ => inl "[Errno 2] No such file or directory";
     float_of_str := sample_float;
     int_of_str := sample_int;
     compensated_sum := false;
     int_max_str_digits := 4300 |}.

(** An interpreter with two files: the example sales, and the same rows
    in reverse order. *)
Definition two_files_env : Env :=
  {| load_rows := fun path =>
       if String.eqb path "reversed.csv" then inr (rev example_sales)
       else inr example_sales;
     float_of_str := sample_float;
     int_of_str := sample_int;
     compensated_sum := false;
     int_max_str_digits := 4300 |}.

(** An interpreter with two files that differ in the columns the
    aggregator does not read. *)
Definition annotated_sales : list Row :=
  [row_of [("Revenue", "100"); ("Units_Sold", "1"); ("Region", "East");
           ("Product", "Widget"); ("Salesperson", "Ann"); ("Note", "rush")];
   row_of [("Salesperson", "Bob"); ("Region", "West"); ("Revenue", "50");
           ("Units_Sold", "2"); ("Product", "Gadget")];
   row_of [("Date", "2025-11-18"); ("Region", "East"); ("Product", "Widget");
           ("Salesperson", "Cy"); ("Revenue", "30"); ("Units_Sold", "3")]].

Definition annotated_env : Env :=
  {| load_rows := fun path =>
       if String.eqb path "annotated.csv" then inr annotated_sales
       else inr example_sales;
     float_of_str := sample_float;
     int_of_str := sample_int;
     compensated_sum := false;
     int_max_str_digits := 4300 |}.

(** Rows with several defects: the first row has units that [int]
    rejects, the second a revenue that [float] rejects. *)
Definition bad_sales : list Row :=
  [sale "East" "Widget" "Ann" "100" "one"; sale "West" "Gadget" "Bob" "n/a" "2"].

(** Rows with good numbers; the second has no [Product] column. *)
Definition no_product_sales : list Row :=
  [sale "East" "Widget" "Ann" "100" "1";
   row_of [("Region", "West"); ("Salesperson", "Bob"); ("Revenue", "50");
           ("Units_Sold", "2")]].

(** ** Whole amounts and totals read back *)

(** The sum of a list of integers, as arithmetic defines it. *)
Fixpoint whole_sum (ns : list Z) : Z :=
  match ns with
  | [] => 0%Z
  | n :: rest => (n + whole_sum rest)%Z
  end.














(** A sample interpreter whose [float] reads unsigned decimal literals of
    up to 18 digits, each as the nearest binary64 number; its [sum] is the
    running total or the compensated sum. *)
Definition wide_float (s : string) : option float :=
  if andb (Nat.ltb 0 (String.length s)) (Nat.leb (String.length s) 18)
  then option_map float_of_Z (digits_value s 0)
  else None.

Definition wide_env (compensated : bool) (rows : list Row) : Env :=
  {| load_rows := fun _ => inr rows;
     float_of_str := wide_float;
     int_of_str := sample_int;
     compensated_sum := compensated;
     int_max_str_digits := 4300 |}.



(** A string of [k] nines. *)
Fixpoint nines (k : nat) : string :=
  match k with
  | O => EmptyString
  | S k' => String "9" (nines k')
  end.

(** An interpreter set to the lowest digit limit there is
    ([sys.set_int_max_str_digits(640)]); its [int] reads unsigned decimal
    literals up to that length. *)
Definition long_int (s : string) : option Z :=
  if andb (Nat.ltb 0 (String.length s)) (Nat.leb (String.length s) 640)
  then digits_value s 0
  else None.

Definition long_env (rows : list Row) : Env :=
  {| load_rows := fun _ => inr rows;
     float_of_str := sample_float;
     int_of_str := long_int;
     compensated_sum := false;
     int_max_str_digits := 640 |}.

(** Two sales whose units have 640 digits each, and 641 together. *)
Definition long_sales : list Row :=
  [sale "East" "Widget" "Ann" "100" (nines 640);
   sale "West" "Gadget" "Bob" "50" (nines 640)].

(* ------------------------------------------------------------------ *)
(** * Float comparison and addition

    The order of binary64 numbers, from the specification of the
    primitive operations in terms of [spec_float]. *)

Section SpecOrder.

Lemma SFcompare_antisym a b :
  SFcompare b a = option_map CompOpp (SFcompare a b).
Proof.
  destruct a as [[]|[]| |[] ma ea], b as [[]|[]| |[] mb eb]; simpl;
    try reflexivity;
    rewrite (Z.compare_antisym ea eb);
    destruct (ea ?= eb)%Z; simpl; try reflexivity;
    change (Pos.compare_cont Eq) with Pos.compare;
    rewrite (Pos.compare_antisym ma mb);
    destruct (ma ?= mb)%positive; reflexivity.
Qed.

Lemma SFcompare_total a b :
  a <> S754_nan -> b <> S754_nan -> exists c, SFcompare a b = Some c.
Proof.
  intros Ha Hb.
  destruct a as [[]|[]| |[] ma ea], b as [[]|[]| |[] mb eb]; simpl;
    try congruence; eauto.
Qed.

Lemma SFcompare_some_l a b c : SFcompare a b = Some c -> a <> S754_nan.
Proof. intros H E. subst a. discriminate. Qed.

Lemma SFcompare_some_r a b c : SFcompare a b = Some c -> b <> S754_nan.
Proof. intros H E. subst b. destruct a; discriminate. Qed.

Lemma SFleb_trans a b c :
  SFleb a b = true -> SFleb b c = true -> SFleb a c = true.
Proof.
  unfold SFleb.
  destruct a as [[]|[]| |[] ma ea], b as [[]|[]| |[] mb eb],
           c as [[]|[]| |[] mc ec]; simpl; try congruence;
  change (Pos.compare_cont Eq) with Pos.compare;
  destruct (Z.compare_spec ea eb), (Z.compare_spec eb ec),
           (Z.compare_spec ea ec); try lia; try congruence; simpl;
  destruct (Pos.compare_spec ma mb), (Pos.compare_spec mb mc),
           (Pos.compare_spec ma mc); simpl; try lia; try congruence.
Qed.

End SpecOrder.

(** Rounding a non-negative mantissa never yields [nan], so the sum of two
    finite floats is a number (possibly an infinity). *)
Section Rounding.
Variables prec emax : Z.

Lemma shr_1_nonneg mrs : (0 <= shr_m mrs)%Z -> (0 <= shr_m (shr_1 mrs))%Z.
Proof.
  destruct mrs as [m r s].
  destruct m as [|[p|p|]|[p|p|]]; simpl; lia.
Qed.

Lemma iter_shr_1_nonneg p :
  forall mrs, (0 <= shr_m mrs)%Z -> (0 <= shr_m (iter_pos shr_1 p mrs))%Z.
Proof.
  induction p as [p IH|p IH|]; simpl; intros mrs H.
  - apply IH, IH, shr_1_nonneg, H.
  - apply IH, IH, H.
  - apply shr_1_nonneg, H.
Qed.

Lemma shr_fexp_nonneg m e l :
  (0 <= m)%Z -> (0 <= shr_m (fst (shr_fexp prec emax m e l)))%Z.
Proof.
  intros Hm. unfold shr_fexp, shr.
  assert (H0 : (0 <= shr_m (shr_record_of_loc m l))%Z)
    by (destruct l as [|[]]; exact Hm).
  destruct (fexp prec emax (Zdigits2 m + e) - e)%Z; simpl; auto.
  apply iter_shr_1_nonneg, H0.
Qed.

Lemma round_nearest_even_nonneg m l :
  (0 <= m)%Z -> (0 <= round_nearest_even m l)%Z.
Proof.
  intros Hm. destruct l as [|[]]; simpl; try lia.
  destruct (Z.even m); lia.
Qed.

Lemma binary_round_aux_not_nan sx mx ex lx :
  (0 <= mx)%Z -> binary_round_aux prec emax sx mx ex lx <> S754_nan.
Proof.
  intros Hm. unfold binary_round_aux.
  pose proof (shr_fexp_nonneg mx ex lx Hm) as H1.
  destruct (shr_fexp prec emax mx ex lx) as [mrs' e'].
  simpl in H1.
  pose proof (shr_fexp_nonneg _ e' loc_Exact
                (round_nearest_even_nonneg _ (loc_of_shr_record mrs') H1)) as H2.
  destruct (shr_fexp prec emax _ e' loc_Exact) as [mrs'' e''].
  simpl in H2.
  destruct (shr_m mrs'') as [|m|m]; try discriminate; try lia.
  destruct (e'' <=? emax - prec)%Z; discriminate.
Qed.

Lemma binary_normalize_not_nan m e s :
  binary_normalize prec emax m e s <> S754_nan.
Proof.
  unfold binary_normalize, binary_round.
  destruct m as [|p|p]; try discriminate;
    destruct (shl_align _ _ _) as [mz ez];
    apply binary_round_aux_not_nan; lia.
Qed.

Lemma SFadd_not_nan a b :
  a <> S754_nan -> SFfinite b = true -> SFadd prec emax a b <> S754_nan.
Proof.
  intros Ha Hb.
  destruct a as [sa|sa| |sa ma ea], b as [sb|sb| |sb mb eb];
    try discriminate; try congruence.
  - destruct sa, sb; discriminate.
  - apply binary_normalize_not_nan.
Qed.

End Rounding.

Section FloatOrder.

Lemma is_finite_SFfinite x : is_finite x = true -> SFfinite (Prim2SF x) = true.
Proof.
  unfold is_finite, Prim2SF. intros H.
  destruct (is_nan x); [discriminate|].
  destruct (is_infinity x); [discriminate|].
  destruct (PrimFloat.is_zero x); [reflexivity|].
  destruct (Z.frexp x) as [r ex].
  destruct (shr_fexp _ _ _ _ _) as [mrs e'].
  destruct (shr_m mrs); reflexivity.
Qed.

Lemma finite_number x : is_finite x = true -> number x.
Proof.
  intros H E. apply is_finite_SFfinite in H. rewrite E in H. discriminate.
Qed.

Lemma zero_number : number 0%float.
Proof. apply finite_number. reflexivity. Qed.

Lemma add_number a b : number a -> is_finite b = true -> number (a + b)%float.
Proof.
  intros Ha Hb. unfold number. rewrite FloatAxioms.add_spec.
  apply SFadd_not_nan; [exact Ha | apply is_finite_SFfinite, Hb].
Qed.

Lemma ltb_negb_leb a b : number a -> number b ->
  (a <? b)%float = negb (b <=? a)%float.
Proof.
  unfold number. intros Ha Hb.
  rewrite FloatAxioms.ltb_spec, FloatAxioms.leb_spec.
  unfold SFltb, SFleb. rewrite SFcompare_antisym.
  destruct (SFcompare_total _ _ Hb Ha) as [c Hc]. rewrite Hc.
  destruct c; reflexivity.
Qed.

Lemma ltb_number a b : (a <? b)%float = true -> number a /\ number b.
Proof.
  rewrite FloatAxioms.ltb_spec. unfold SFltb, number.
  destruct (SFcompare (Prim2SF a) (Prim2SF b)) as [c|] eqn:Hc;
    [|discriminate].
  intros _. split.
  - eapply SFcompare_some_l, Hc.
  - eapply SFcompare_some_r, Hc.
Qed.

Lemma leb_trans a b c :
  (a <=? b)%float = true -> (b <=? c)%float = true -> (a <=? c)%float = true.
Proof. rewrite !FloatAxioms.leb_spec. apply SFleb_trans. Qed.

Lemma ltb_leb a b : (a <? b)%float = true -> (a <=? b)%float = true.
Proof.
  rewrite FloatAxioms.ltb_spec, FloatAxioms.leb_spec. unfold SFltb, SFleb.
  destruct (SFcompare _ _) as [[]|]; congruence.
Qed.

Lemma nlt_leb a b : number a -> number b ->
  (a <? b)%float = false -> (b <=? a)%float = true.
Proof.
  intros Ha Hb H. rewrite (ltb_negb_leb a b Ha Hb) in H.
  destruct (b <=? a)%float; [reflexivity | discriminate].
Qed.

Lemma leb_nlt a b : number a -> number b ->
  (b <=? a)%float = true -> (a <? b)%float = false.
Proof.
  intros Ha Hb H. rewrite (ltb_negb_leb a b Ha Hb), H. reflexivity.
Qed.

Lemma ltb_asym a b : (a <? b)%float = true -> (b <? a)%float = false.
Proof.
  intros H. destruct (ltb_number _ _ H) as [Ha Hb].
  apply leb_nlt; auto. apply ltb_leb, H.
Qed.

Lemma nlt_trans a b c : number a -> number b -> number c ->
  (a <? b)%float = false -> (b <? c)%float = false -> (a <? c)%float = false.
Proof.
  intros Ha Hb Hc H1 H2. apply leb_nlt; auto.
  apply (leb_trans c b a).
  - apply nlt_leb; assumption.
  - apply nlt_leb; assumption.
Qed.

Lemma nlt_ltb_trans a b c : number a -> number b ->
  (b <? a)%float = false -> (b <? c)%float = true -> (a <? c)%float = true.
Proof.
  intros Ha Hb H1 H2. destruct (ltb_number _ _ H2) as [_ Hc].
  destruct (a <? c)%float eqn:Hac; [reflexivity|].
  rewrite (nlt_trans b a c Hb Ha Hc) in H2; auto.
Qed.

Lemma ltb_trans a b c :
  (a <? b)%float = true -> (b <? c)%float = true -> (a <? c)%float = true.
Proof.
  intros H1 H2. destruct (ltb_number _ _ H1) as [Ha Hb].
  eapply nlt_ltb_trans; eauto. apply ltb_asym, H1.
Qed.

End FloatOrder.

(* ------------------------------------------------------------------ *)
(** * Dicts in insertion order *)

Section Dicts.

Lemma cell_eqb_eq a b : cell_eqb a b = true <-> a = b.
Proof.
  destruct a as [x|], b as [y|]; simpl; split; intros H;
    try discriminate; try reflexivity.
  - apply String.eqb_eq in H. congruence.
  - inversion H. apply String.eqb_refl.
Qed.

Lemma cell_eqb_refl a : cell_eqb a a = true.
Proof. apply cell_eqb_eq. reflexivity. Qed.

Lemma cell_eqb_neq a b : cell_eqb a b = false <-> a <> b.
Proof.
  split.
  - intros H E. apply cell_eqb_eq in E. congruence.
  - intros H. destruct (cell_eqb a b) eqn:E; [|reflexivity].
    apply cell_eqb_eq in E. contradiction.
Qed.

Context {V : Type}.
Implicit Types (d : dict V) (k : cell) (v : V).

Lemma dict_get_set k k0 v d dflt :
  dict_get k (dict_set k0 v d) dflt
  = if cell_eqb k0 k then v else dict_get k d dflt.
Proof.
  induction d as [|[k1 w] d IH]; simpl.
  - destruct (cell_eqb k0 k); reflexivity.
  - destruct (cell_eqb k1 k0) eqn:E10; simpl.
    + apply cell_eqb_eq in E10. subst k1.
      destruct (cell_eqb k0 k); reflexivity.
    + destruct (cell_eqb k1 k) eqn:E1.
      * apply cell_eqb_eq in E1. subst k1.
        apply cell_eqb_neq in E10.
        destruct (cell_eqb k0 k) eqn:E0; [|reflexivity].
        apply cell_eqb_eq in E0. congruence.
      * exact IH.
Qed.

Lemma dict_set_present k v d :
  In k (map fst d) -> map fst (dict_set k v d) = map fst d.
Proof.
  induction d as [|[k1 w] d IH]; simpl; intros H; [contradiction|].
  destruct (cell_eqb k1 k) eqn:E; simpl; [reflexivity|].
  f_equal. apply IH. destruct H as [H|H]; [|exact H].
  apply cell_eqb_neq in E. contradiction.
Qed.

Lemma dict_set_absent k v d :
  ~ In k (map fst d) -> dict_set k v d = d ++ [(k, v)].
Proof.
  induction d as [|[k1 w] d IH]; simpl; intros H; [reflexivity|].
  destruct (cell_eqb k1 k) eqn:E.
  - apply cell_eqb_eq in E. tauto.
  - f_equal. apply IH. tauto.
Qed.

Lemma in_keys_dec k (ks : list cell) : {In k ks} + {~ In k ks}.
Proof.
  apply in_dec. intros a b.
  destruct (cell_eqb a b) eqn:E.
  - left. apply cell_eqb_eq, E.
  - right. apply cell_eqb_neq, E.
Qed.

Lemma dict_set_keys k v d :
  map fst (dict_set k v d)
  = if in_keys_dec k (map fst d) then map fst d else map fst d ++ [k].
Proof.
  destruct (in_keys_dec k (map fst d)) as [H|H].
  - apply dict_set_present, H.
  - rewrite (dict_set_absent k v d H), map_app. reflexivity.
Qed.

Lemma dict_set_NoDup k v d :
  NoDup (map fst d) -> NoDup (map fst (dict_set k v d)).
Proof.
  intros H. rewrite dict_set_keys.
  destruct (in_keys_dec k (map fst d)) as [Hin|Hin]; [exact H|].
  apply NoDup_app; simpl; auto.
  - constructor; [tauto | constructor].
  - intros a Ha [Hb|[]]. subst. contradiction.
Qed.

Lemma dict_get_in k v d dflt :
  NoDup (map fst d) -> In (k, v) d -> dict_get k d dflt = v.
Proof.
  induction d as [|[k1 w] d IH]; simpl; intros Hnd Hin; [contradiction|].
  inversion Hnd as [|? ? Hk1 Hnd']; subst.
  destruct Hin as [Hin|Hin].
  - inversion Hin; subst. rewrite cell_eqb_refl. reflexivity.
  - destruct (cell_eqb k1 k) eqn:E.
    + apply cell_eqb_eq in E. subst k1.
      exfalso. apply Hk1. apply (in_map fst) in Hin. exact Hin.
    + apply IH; assumption.
Qed.

Lemma dict_set_Forall (P : V -> Prop) k v d :
  P v -> Forall (fun kv => P (snd kv)) d ->
  Forall (fun kv => P (snd kv)) (dict_set k v d).
Proof.
  intros Hv. induction d as [|[k1 w] d IH]; simpl; intros H.
  - constructor; [exact Hv | constructor].
  - inversion H; subst.
    destruct (cell_eqb k1 k); constructor; simpl; auto.
Qed.

Lemma dict_get_Forall (P : V -> Prop) k d dflt :
  P dflt -> Forall (fun kv => P (snd kv)) d -> P (dict_get k d dflt).
Proof.
  intros Hd. induction d as [|[k1 w] d IH]; simpl; intros H; [exact Hd|].
  inversion H; subst. destruct (cell_eqb k1 k); auto.
Qed.

End Dicts.

(* ------------------------------------------------------------------ *)
(** * The grouping loop *)

Section Grouping.

Lemma accumulate_snoc es e acc :
  accumulate (es ++ [e]) acc
  = dict_set (fst e)
      (dict_get (fst e) (accumulate es acc) 0 + snd e)%float
      (accumulate es acc).
Proof. unfold accumulate. rewrite fold_left_app. reflexivity. Qed.

Lemma accumulate_NoDup es : forall acc,
  NoDup (map fst acc) -> NoDup (map fst (accumulate es acc)).
Proof.
  induction es as [|e es IH]; simpl; intros acc H; [exact H|].
  apply IH, dict_set_NoDup, H.
Qed.

Lemma accumulate_get key es : forall acc,
  dict_get key (accumulate es acc) 0%float
  = fold_left PrimFloat.add
      (map snd (filter (fun e => cell_eqb (fst e) key) es))
      (dict_get key acc 0%float).
Proof.
  induction es as [|[k v] es IH]; simpl; intros acc; [reflexivity|].
  rewrite IH, dict_get_set.
  destruct (cell_eqb k key) eqn:E; simpl; [|reflexivity].
  apply cell_eqb_eq in E. subst k. reflexivity.
Qed.

(** The loop computes the summed revenue of every group. *)
Lemma accumulate_summed key es :
  dict_get key (accumulate es []) 0%float = summed_revenue key es.
Proof. apply accumulate_get. Qed.

Lemma accumulate_keys k es : forall acc,
  In k (map fst (accumulate es acc))
  <-> In k (map fst acc) \/ In k (map fst es).
Proof.
  induction es as [|e es IH]; simpl; intros acc; [tauto|].
  rewrite IH, dict_set_keys.
  destruct (in_keys_dec (fst e) (map fst acc)) as [H|H].
  - split; [tauto|]. intros [?|[?|?]]; subst; auto.
  - rewrite in_app_iff. simpl. tauto.
Qed.

Lemma accumulate_number es : forall acc,
  finite_values es -> number_values acc -> number_values (accumulate es acc).
Proof.
  induction es as [|e es IH]; simpl; intros acc Hes Hacc; [exact Hacc|].
  inversion Hes; subst. apply IH; [assumption|].
  apply (dict_set_Forall number); [|exact Hacc].
  apply add_number; [|assumption].
  apply (dict_get_Forall number); [apply zero_number | exact Hacc].
Qed.

(** Keys enter the dict in the order in which the rows first show them:
    whatever stands before the first entry of a key belongs to a key that
    stands before it in the dict. *)
Lemma accumulate_first_seen es : forall kpre k kpost,
  map fst (accumulate es []) = kpre ++ k :: kpost ->
  exists es1 x es2,
    es = es1 ++ (k, x) :: es2 /\ forall e, In e es1 -> In (fst e) kpre.
Proof.
  induction es as [|e es IH] using rev_ind; intros kpre k kpost H.
  - destruct kpre; discriminate.
  - rewrite accumulate_snoc, dict_set_keys in H.
    destruct (in_keys_dec (fst e) (map fst (accumulate es []))) as [Hin|Hin].
    + destruct (IH _ _ _ H) as (es1 & x & es2 & -> & Hpre).
      exists es1, x, (es2 ++ [e]). split; [|exact Hpre].
      rewrite <- app_assoc. reflexivity.
    + destruct kpost as [|k' kpost'] using rev_ind.
      * apply app_inj_tail in H. destruct H as [Hk <-].
        exists es, (snd e), []. split.
        -- destruct e; reflexivity.
        -- intros e' He'. rewrite <- Hk.
           apply accumulate_keys. right. apply in_map, He'.
      * clear IHkpost'.
        change (kpre ++ k :: kpost' ++ [k'])
          with (kpre ++ (k :: kpost') ++ [k']) in H.
        rewrite app_assoc in H.
        apply app_inj_tail in H. destruct H as [Hk _].
        destruct (IH _ _ _ Hk) as (es1 & x & es2 & -> & Hpre).
        exists es1, x, (es2 ++ [e]). split; [|exact Hpre].
        rewrite <- app_assoc. reflexivity.
Qed.

(** A dict comprehension over items with distinct keys lists them as they
    come. *)
Lemma format_items_from items : forall (acc : dict string),
  NoDup (map fst acc ++ map fst items) ->
  fold_left (fun d kv => dict_set (fst kv) (fmt_money (snd kv)) d) items acc
  = acc ++ map (fun kv => (fst kv, fmt_money (snd kv))) items.
Proof.
  induction items as [|[k v] items IH]; simpl; intros acc H.
  - rewrite app_nil_r. reflexivity.
  - rewrite dict_set_absent.
    + rewrite IH.
      * rewrite <- app_assoc. reflexivity.
      * rewrite map_app, <- app_assoc. exact H.
    + apply NoDup_remove_2 in H. intros Hin. apply H.
      apply in_or_app. left. exact Hin.
Qed.

Lemma format_items_map items :
  NoDup (map fst items) ->
  format_items items = map (fun kv => (fst kv, fmt_money (snd kv))) items.
Proof. intros H. apply (format_items_from items []). exact H. Qed.

End Grouping.

(* ------------------------------------------------------------------ *)
(** * Neighbours in a list *)

Section Chains.

Lemma chain_cons {A} (R : A -> A -> Prop) a l :
  chain R (a :: l) <-> chain R l /\ match l with [] => True | b :: _ => R a b end.
Proof. destruct l; simpl; tauto. Qed.

Lemma chain_app {A} (R : A -> A -> Prop) l1 : forall a l2,
  chain R (l1 ++ a :: l2)
  <-> chain R (l1 ++ [a]) /\ chain R (a :: l2).
Proof.
  induction l1 as [|b l1 IH]; intros a l2.
  - simpl. tauto.
  - destruct l1 as [|c l1].
    + simpl. tauto.
    + specialize (IH a l2).
      change (chain R ((b :: c :: l1) ++ a :: l2))
        with (R b c /\ chain R ((c :: l1) ++ a :: l2)).
      change (chain R ((b :: c :: l1) ++ [a]))
        with (R b c /\ chain R ((c :: l1) ++ [a])).
      tauto.
Qed.

Lemma chain_split {A} (R : A -> A -> Prop) l1 a b l2 :
  chain R (l1 ++ a :: b :: l2) -> R a b.
Proof. intros H. apply chain_app in H. simpl in H. tauto. Qed.

Lemma chain_rev {A} (R : A -> A -> Prop) l :
  chain R l -> chain (fun a b => R b a) (rev l).
Proof.
  induction l as [|a l IH]; simpl; intros H; [exact I|].
  apply chain_cons in H. destruct H as [Hl Ha].
  destruct l as [|b l]; [exact I|].
  simpl. rewrite <- app_assoc. simpl.
  apply chain_app. split.
  - simpl in IH. apply IH, Hl.
  - simpl. tauto.
Qed.

Lemma chain_impl {A} (R S : A -> A -> Prop) l :
  (forall a b, In a l -> In b l -> R a b -> S a b) -> chain R l -> chain S l.
Proof.
  induction l as [|a l IH]; intros H Hc; [exact I|].
  apply chain_cons in Hc. apply chain_cons. destruct Hc as [Hl Ha]. split.
  - apply IH; [|exact Hl]. intros; apply H; simpl; auto.
  - destruct l; [exact I|]. apply H; simpl; auto.
Qed.

End Chains.

(* ------------------------------------------------------------------ *)
(** * [max] and [sorted] *)

Section MaxAndSort.

Implicit Types (x y best : cell * float) (l items : list (cell * float)).

Lemma max_from_snoc items : forall best x,
  max_from best (items ++ [x])
  = if (snd (max_from best items) <? snd x)%float then x
    else max_from best items.
Proof.
  induction items as [|it rest IH]; simpl; intros best x; [reflexivity|].
  destruct (snd best <? snd it)%float; apply IH.
Qed.

(** Where the maximum stands: the items before it are smaller, the items
    after it are not greater. *)
Lemma max_from_spec items : forall best,
  number (snd best) -> number_values items ->
  (max_from best items = best
   /\ forall x, In x items -> (snd best <? snd x)%float = false)
  \/ (exists pre post,
        items = pre ++ max_from best items :: post
        /\ (snd best <? snd (max_from best items))%float = true
        /\ (forall x, In x pre ->
              (snd x <? snd (max_from best items))%float = true)
        /\ (forall x, In x post ->
              (snd (max_from best items) <? snd x)%float = false)).
Proof.
  induction items as [|it rest IH]; simpl; intros best Hb Hn.
  - left. split; [reflexivity | intros x []].
  - inversion Hn as [|? ? Hit Hrest]; subst.
    destruct (snd best <? snd it)%float eqn:Hlt.
    + right. destruct (IH it Hit Hrest)
        as [[Hm Hall]|(pre & post & Hs & Hgt & Hpre & Hpost)].
      * exists [], rest. rewrite Hm.
        split; [reflexivity|]. split; [exact Hlt|].
        split; [intros x []|exact Hall].
      * exists (it :: pre), post.
        split; [simpl; f_equal; exact Hs|].
        split; [eapply ltb_trans; eauto|].
        split; [|exact Hpost].
        intros x [<-|Hx]; auto.
    + destruct (IH best Hb Hrest)
        as [[Hm Hall]|(pre & post & Hs & Hgt & Hpre & Hpost)].
      * left. split; [exact Hm|]. intros x [<-|Hx]; auto.
      * right. exists (it :: pre), post.
        split; [simpl; f_equal; exact Hs|].
        split; [exact Hgt|].
        split; [|exact Hpost].
        intros x [Hx|Hx]; [subst x | auto].
        apply (nlt_ltb_trans (snd it) (snd best)); auto.
Qed.

Lemma py_max_spec items m :
  number_values items -> py_max items = inr m ->
  exists pre post,
    items = pre ++ m :: post
    /\ (forall x, In x pre -> (snd x <? snd m)%float = true)
    /\ (forall x, In x post -> (snd m <? snd x)%float = false).
Proof.
  destruct items as [|it rest]; simpl; intros Hn H; [discriminate|].
  inversion H; subst m; clear H.
  inversion Hn as [|? ? Hit Hrest]; subst.
  destruct (max_from_spec rest it Hit Hrest)
    as [[Hm Hall]|(pre & post & Hs & Hgt & Hpre & Hpost)].
  - exists [], rest. rewrite Hm.
    split; [reflexivity|]. split; [intros x []|exact Hall].
  - exists (it :: pre), post.
    split; [simpl; f_equal; exact Hs|].
    split; [|exact Hpost].
    intros x [<-|Hx]; auto.
Qed.

(** The maximum is not less than any item. *)
Lemma py_max_greatest items m :
  number_values items -> py_max items = inr m ->
  forall x, In x items -> (snd x <=? snd m)%float = true.
Proof.
  intros Hn H x Hx.
  destruct (py_max_spec items m Hn H) as (pre & post & Hs & Hpre & Hpost).
  assert (Hall : forall y, In y items -> number (snd y))
    by (apply Forall_forall; exact Hn).
  assert (Hm : number (snd m))
    by (apply Hall; rewrite Hs; apply in_elt).
  rewrite Hs in Hx. apply in_app_or in Hx.
  destruct Hx as [Hx|[<-|Hx]].
  - apply ltb_leb, Hpre, Hx.
  - apply nlt_leb; auto.
    destruct (snd m <? snd m)%float eqn:E; [|reflexivity].
    rewrite (ltb_asym _ _ E) in E. discriminate.
  - apply nlt_leb; auto. apply Hall. rewrite Hs.
    apply in_or_app. right. right. exact Hx.
Qed.

(** ** The insertion sort *)

Lemma insert_asc_perm x l : Permutation (insert_asc x l) (x :: l).
Proof.
  induction l as [|y l IH]; simpl; [reflexivity|].
  destruct (snd y <? snd x)%float; [|reflexivity].
  rewrite IH. apply perm_swap.
Qed.

Lemma sort_asc_perm l : Permutation (sort_asc l) l.
Proof.
  induction l as [|x l IH]; simpl; [reflexivity|].
  rewrite insert_asc_perm. constructor. exact IH.
Qed.

Lemma sorted_desc_perm l : Permutation (sorted_desc l) l.
Proof.
  unfold sorted_desc.
  rewrite <- Permutation_rev, sort_asc_perm, <- Permutation_rev.
  reflexivity.
Qed.

Lemma insert_asc_ascending x l : ascending l -> ascending (insert_asc x l).
Proof.
  unfold ascending.
  induction l as [|y l IH]; intros H; [exact I|].
  cbn [insert_asc].
  destruct (snd y <? snd x)%float eqn:E.
  - apply chain_cons in H. destruct H as [Hl Hy].
    apply chain_cons. split; [apply IH, Hl|].
    destruct l as [|z l]; simpl.
    + apply ltb_asym, E.
    + destruct (snd z <? snd x)%float; [exact Hy | apply ltb_asym, E].
  - apply chain_cons. split; [exact H | exact E].
Qed.

Lemma sort_asc_ascending l : ascending (sort_asc l).
Proof.
  induction l as [|x l IH]; simpl; [exact I|].
  apply insert_asc_ascending, IH.
Qed.

(** A list that is already in order is returned as it is. *)
Lemma sort_asc_run l : ascending l -> sort_asc l = l.
Proof.
  unfold ascending.
  induction l as [|x l IH]; intros H; [reflexivity|].
  apply chain_cons in H. destruct H as [Hl Hx].
  cbn [sort_asc fold_right]. fold (sort_asc l). rewrite (IH Hl).
  destruct l as [|y l]; [reflexivity|].
  cbn [insert_asc]. rewrite Hx. reflexivity.
Qed.

Lemma sorted_desc_run l : descending l -> sorted_desc l = l.
Proof.
  intros H. unfold sorted_desc. rewrite sort_asc_run.
  - apply rev_involutive.
  - apply (chain_rev (fun a b => (snd a <? snd b)%float = false)), H.
Qed.

Lemma sorted_desc_descending l : descending (sorted_desc l).
Proof.
  unfold descending, sorted_desc.
  apply (chain_rev (fun a b => (snd b <? snd a)%float = false)).
  apply sort_asc_ascending.
Qed.

(** With numbers as keys the neighbour-wise order is the order of the
    whole list. *)
Lemma ascending_head_least l : forall y,
  number_values (y :: l) -> ascending (y :: l) ->
  forall w, In w l -> (snd w <? snd y)%float = false.
Proof.
  unfold ascending.
  induction l as [|z l IH]; intros y Hn Ha w Hw; [contradiction|].
  inversion Hn as [|? ? Hy Hn']; subst.
  apply chain_cons in Ha. destruct Ha as [Ha Hzy].
  destruct Hw as [<-|Hw]; [exact Hzy|].
  inversion Hn' as [|? ? Hz Hl]; subst.
  assert (Hwn : number (snd w))
    by (rewrite Forall_forall in Hl; apply Hl, Hw).
  apply (nlt_trans (snd w) (snd z) (snd y) Hwn Hz Hy); [|exact Hzy].
  apply (IH z Hn' Ha w Hw).
Qed.

Lemma insert_asc_nonempty x l : insert_asc x l <> [].
Proof. destruct l as [|y l]; simpl; [|destruct (_ <? _)%float]; discriminate. Qed.

Lemma sort_asc_nonempty l : l <> [] -> sort_asc l <> [].
Proof. destruct l; [congruence|]. intros _. apply insert_asc_nonempty. Qed.

(** Inserting into an ascending list of numbers: the last item changes
    only if the new item is greater than it. *)
Lemma insert_asc_last x d l :
  number (snd x) -> number_values l -> ascending l -> l <> [] ->
  List.last (insert_asc x l) d
  = if (snd (List.last l d) <? snd x)%float then x else List.last l d.
Proof.
  intros Hx. induction l as [|y l IH]; intros Hn Ha Hne; [congruence|].
  destruct l as [|z l].
  - simpl. destruct (snd y <? snd x)%float; reflexivity.
  - assert (Hn' : number_values (z :: l)) by (inversion Hn; assumption).
    assert (Ha' : ascending (z :: l)) by (apply chain_cons in Ha; tauto).
    assert (IH' := IH Hn' Ha' ltac:(discriminate)).
    change (List.last (y :: z :: l) d) with (List.last (z :: l) d).
    assert (Hins : insert_asc x (y :: z :: l)
                   = if (snd y <? snd x)%float
                     then y :: insert_asc x (z :: l) else x :: y :: z :: l)
      by reflexivity.
    rewrite Hins. clear Hins IH.
    pose proof (insert_asc_nonempty x (z :: l)) as Hne'.
    remember (insert_asc x (z :: l)) as ins eqn:Eins.
    destruct (snd y <? snd x)%float eqn:E.
    + destruct ins as [|p ins]; [congruence | exact IH'].
    + change (List.last (x :: y :: z :: l) d) with (List.last (z :: l) d).
      assert (Hin : In (List.last (z :: l) d) (z :: l)).
      { clear. revert z. induction l as [|a l IHl]; intros z.
        - left. reflexivity.
        - right. apply (IHl a). }
      assert (Hy : number (snd y)) by (inversion Hn; assumption).
      assert (Hlast : number (snd (List.last (z :: l) d)))
        by (apply (proj1 (Forall_forall _ _) Hn'), Hin).
      rewrite (nlt_trans (snd (List.last (z :: l) d)) (snd y) (snd x)
                 Hlast Hy Hx); auto.
      apply (ascending_head_least (z :: l) y); auto.
Qed.

Lemma sort_asc_number l : number_values l -> number_values (sort_asc l).
Proof.
  intros H. eapply Permutation_Forall; [|exact H].
  symmetry. apply sort_asc_perm.
Qed.

(** The last item of the ascending sort of the reversed items is the
    item [max] picks. *)
Lemma sort_asc_last it rest :
  number_values (it :: rest) ->
  List.last (sort_asc (rev (it :: rest))) it = max_from it rest.
Proof.
  induction rest as [|x rest IH] using rev_ind; intros Hn; [reflexivity|].
  assert (Hsplit : number_values (it :: rest) /\ number (snd x)).
  { change (it :: rest ++ [x]) with ((it :: rest) ++ [x]) in Hn.
    apply Forall_app in Hn. destruct Hn as [H1 H2].
    inversion H2; auto. }
  destruct Hsplit as [Hn' Hx].
  change (it :: rest ++ [x]) with ((it :: rest) ++ [x]).
  rewrite rev_unit. cbn [sort_asc fold_right].
  fold (sort_asc (rev (it :: rest))).
  rewrite insert_asc_last; auto.
  - rewrite (IH Hn'), max_from_snoc. reflexivity.
  - apply sort_asc_number. eapply Permutation_Forall; [|exact Hn'].
    apply Permutation_rev.
  - apply sort_asc_ascending.
  - apply sort_asc_nonempty. simpl. destruct (rev rest); discriminate.
Qed.

Lemma hd_error_rev {A} (l : list A) (d : A) :
  l <> [] -> hd_error (rev l) = Some (List.last l d).
Proof.
  induction l as [|a l IH] using rev_ind; intros H; [congruence|].
  rewrite rev_unit, last_last. reflexivity.
Qed.

(** The first item of the sorted items is the item [max] picks. *)
Lemma sorted_desc_head items m :
  number_values items -> py_max items = inr m ->
  hd_error (sorted_desc items) = Some m.
Proof.
  destruct items as [|it rest]; intros Hn H; [discriminate|].
  simpl in H. inversion H; subst m; clear H.
  unfold sorted_desc.
  rewrite (hd_error_rev _ it).
  - rewrite sort_asc_last by exact Hn. reflexivity.
  - apply sort_asc_nonempty. simpl. destruct (rev rest); discriminate.
Qed.

(** Each item of the sorted items is not less than the next. *)
Lemma sorted_desc_leb items :
  number_values items ->
  chain (fun a b => (snd b <=? snd a)%float = true) (sorted_desc items).
Proof.
  intros Hn.
  assert (Hall : forall x, In x (sorted_desc items) -> number (snd x)).
  { apply Forall_forall. eapply Permutation_Forall; [|exact Hn].
    symmetry. apply sorted_desc_perm. }
  eapply chain_impl; [|apply sorted_desc_descending].
  intros a b Ha Hb H. apply nlt_leb; auto.
Qed.

End MaxAndSort.

(* ------------------------------------------------------------------ *)
(** * The aggregator, step by step *)

Section Aggregator.

Variable E : Env.

Lemma bind_inr {A B} (c : comp A) (k : A -> comp B) b :
  bind c k = inr b -> exists a, c = inr a /\ k a = inr b.
Proof. destruct c as [e|a]; simpl; intros H; [discriminate | eauto]. Qed.

Lemma mapM_inr {A B} (f : A -> comp B) xs : forall ys,
  mapM f xs = inr ys -> Forall2 (fun x y => f x = inr y) xs ys.
Proof.
  induction xs as [|x xs IH]; simpl; intros ys H.
  - inversion H. constructor.
  - apply bind_inr in H. destruct H as (y & Hy & H).
    apply bind_inr in H. destruct H as (ys' & Hys & H).
    inversion H; subst. constructor; auto.
Qed.

Lemma mapM_succeeds {A B} (f : A -> comp B) xs :
  succeeds (mapM f xs) = forallb (fun x => succeeds (f x)) xs.
Proof.
  induction xs as [|x xs IH]; simpl; [reflexivity|].
  destruct (f x) as [e|y]; simpl; [reflexivity|].
  rewrite <- IH. destruct (mapM f xs); reflexivity.
Qed.

Lemma succeeds_inr {A} (c : comp A) :
  succeeds c = true -> exists a, c = inr a.
Proof. destruct c; simpl; intros H; [discriminate | eauto]. Qed.

Lemma open_csv_inr file_path rows :
  open_csv E file_path = inr rows <-> load_rows E file_path = inr rows.
Proof.
  unfold open_csv, raise, ret. destruct (load_rows E file_path);
    split; intros H; try discriminate; congruence.
Qed.

(** A grouping loop reads the entries of the rows, then accumulates
    them. *)
Lemma revenue_by_entries col rows : forall acc,
  revenue_by E col rows acc
  = es <- entries E col rows ;; ret (accumulate es acc).
Proof.
  unfold entries.
  induction rows as [|row rows IH]; simpl; intros acc; [reflexivity|].
  unfold entry at 1.
  destruct (getitem row col) as [e|key]; simpl; [reflexivity|].
  destruct (row_revenue E row) as [e|revenue]; simpl; [reflexivity|].
  rewrite IH. destruct (mapM (entry E col) rows); reflexivity.
Qed.

Lemma entries_finite col rows es :
  entries E col rows = inr es ->
  forallb (finite_revenue E) rows = true -> finite_values es.
Proof.
  intros H. apply mapM_inr in H.
  induction H as [|row e rows es He _ IH]; simpl; intros Hf.
  - constructor.
  - apply andb_true_iff in Hf. destruct Hf as [Hrow Hrows].
    constructor; [|apply IH, Hrows].
    unfold entry in He. unfold finite_revenue in Hrow.
    destruct (getitem row col); simpl in He; [discriminate|].
    destruct (row_revenue E row); simpl in He; [discriminate|].
    inversion He; subst. exact Hrow.
Qed.

(** What a grouping loop leaves in its dict. *)
Lemma revenue_by_inr col rows acc :
  revenue_by E col rows [] = inr acc ->
  exists es,
    entries E col rows = inr es /\ acc = accumulate es []
    /\ NoDup (map fst acc).
Proof.
  rewrite revenue_by_entries. intros H.
  apply bind_inr in H. destruct H as (es & Hes & H).
  inversion H; subst. exists es. repeat split; auto.
  apply accumulate_NoDup. constructor.
Qed.

Lemma accumulate_value es k v :
  In (k, v) (accumulate es []) -> v = summed_revenue k es.
Proof.
  intros H. rewrite <- accumulate_summed. symmetry.
  apply dict_get_in; [|exact H].
  apply accumulate_NoDup. constructor.
Qed.

Lemma accumulate_numbers es :
  finite_values es -> number_values (accumulate es []).
Proof. intros H. apply accumulate_number; [exact H | constructor]. Qed.

(** The report, read back from a successful run. *)
Lemma statistics_inr file_path stats :
  statistics E file_path = inr stats ->
  exists rows revenues units regions products people tr tp ts avg,
    load_rows E file_path = inr rows
    /\ mapM (row_revenue E) rows = inr revenues
    /\ mapM (row_units E) rows = inr units
    /\ revenue_by E "Region" rows [] = inr regions
    /\ revenue_by E "Product" rows [] = inr products
    /\ revenue_by E "Salesperson" rows [] = inr people
    /\ py_max regions = inr tr
    /\ py_max products = inr tp
    /\ py_max people = inr ts
    /\ py_div (py_sum E revenues) (List.length rows) = inr avg
    /\ stats = {|
         total_revenue := fmt_money (py_sum E revenues);
         total_units_sold := py_sum_int units;
         average_revenue_per_transaction := fmt_money avg;
         number_of_transactions := List.length rows;
         top_region := top_entry tr;
         top_product := top_entry tp;
         top_salesperson := top_entry ts;
         region_breakdown := format_items (sorted_desc regions);
         product_breakdown := format_items (sorted_desc products);
         salesperson_breakdown := format_items (sorted_desc people)
       |}.
Proof.
  unfold statistics. intros H.
  apply bind_inr in H. destruct H as (rows & Hrows & H).
  apply open_csv_inr in Hrows.
  apply bind_inr in H. destruct H as (revenues & Hrev & H).
  apply bind_inr in H. destruct H as (units & Hunits & H).
  apply bind_inr in H. destruct H as (regions & Hreg & H).
  apply bind_inr in H. destruct H as (products & Hprod & H).
  apply bind_inr in H. destruct H as (people & Hper & H).
  apply bind_inr in H. destruct H as (tr & Htr & H).
  apply bind_inr in H. destruct H as (tp & Htp & H).
  apply bind_inr in H. destruct H as (ts & Hts & H).
  apply bind_inr in H. destruct H as (avg & Havg & H).
  unfold json_dumps in H.
  destruct (int_prints E _); [|discriminate].
  inversion H; subst.
  exists rows, revenues, units, regions, products, people, tr, tp, ts, avg.
  repeat split; assumption.
Qed.

(** A report has passed [json.dumps]: its unit total can be printed. *)
Lemma statistics_prints file_path stats :
  statistics E file_path = inr stats ->
  int_prints E (total_units_sold stats) = true.
Proof.
  unfold statistics. intros H.
  apply bind_inr in H. destruct H as (rows & _ & H).
  apply bind_inr in H. destruct H as (revenues & _ & H).
  apply bind_inr in H. destruct H as (units & _ & H).
  apply bind_inr in H. destruct H as (regions & _ & H).
  apply bind_inr in H. destruct H as (products & _ & H).
  apply bind_inr in H. destruct H as (people & _ & H).
  apply bind_inr in H. destruct H as (tr & _ & H).
  apply bind_inr in H. destruct H as (tp & _ & H).
  apply bind_inr in H. destruct H as (ts & _ & H).
  apply bind_inr in H. destruct H as (avg & _ & H).
  unfold json_dumps in H.
  destruct (int_prints E _) eqn:Hp; [|discriminate].
  inversion H; subst. exact Hp.
Qed.

Lemma calculate_statistics_success file_path stats :
  calculate_statistics E file_path = Success stats
  <-> statistics E file_path = inr stats.
Proof.
  unfold calculate_statistics, try_except.
  destruct (statistics E file_path); split; intros H;
    try discriminate; congruence.
Qed.

End Aggregator.

(* ------------------------------------------------------------------ *)
(** * One grouping: its top entry and its breakdown *)

Section OneGrouping.

Variable es : list (cell * float).

Local Abbreviation acc := (accumulate es []).

Lemma sorted_items_NoDup : NoDup (map fst (sorted_desc acc)).
Proof.
  eapply Permutation_NoDup.
  - apply Permutation_map. symmetry. apply sorted_desc_perm.
  - apply accumulate_NoDup. constructor.
Qed.

Lemma breakdown_map :
  format_items (sorted_desc acc)
  = map (fun kv => (fst kv, fmt_money (snd kv))) (sorted_desc acc).
Proof. apply format_items_map, sorted_items_NoDup. Qed.

Lemma sorted_item_value k v :
  In (k, v) (sorted_desc acc) ->
  In k (map fst es) /\ v = summed_revenue k es.
Proof.
  intros H. apply (Permutation_in _ (sorted_desc_perm acc)) in H.
  split.
  - apply (in_map fst) in H. apply accumulate_keys in H.
    destruct H as [[]|H]. exact H.
  - apply accumulate_value, H.
Qed.

Lemma breakdown_shows_sums :
  shows_sums es (format_items (sorted_desc acc)).
Proof.
  intros k s H. rewrite breakdown_map in H.
  apply in_map_iff in H. destruct H as ([k' v] & Heq & Hin).
  simpl in Heq. inversion Heq; subst.
  destruct (sorted_item_value _ _ Hin) as [Hk Hv].
  split; [exact Hk | rewrite Hv; reflexivity].
Qed.

Lemma breakdown_weakly_descending :
  finite_values es ->
  weakly_descending es (format_items (sorted_desc acc)).
Proof.
  intros Hfin pre k1 s1 k2 s2 post H.
  rewrite breakdown_map in H.
  apply map_eq_app in H. destruct H as (pre' & rest & Hs & _ & H).
  apply map_eq_cons in H. destruct H as ([k1' v1] & rest1 & -> & H1 & H).
  apply map_eq_cons in H. destruct H as ([k2' v2] & rest2 & -> & H2 & _).
  simpl in H1, H2. inversion H1; inversion H2; subst k1' k2'.
  pose proof (sorted_desc_leb acc (accumulate_numbers es Hfin)) as Hc.
  rewrite Hs in Hc. apply chain_split in Hc. simpl in Hc.
  assert (In (k1, v1) (sorted_desc acc)) as Hin1
    by (rewrite Hs; apply in_elt).
  assert (In (k2, v2) (sorted_desc acc)) as Hin2
    by (rewrite Hs; apply in_or_app; right; right; left; reflexivity).
  destruct (sorted_item_value _ _ Hin1) as [_ <-].
  destruct (sorted_item_value _ _ Hin2) as [_ <-].
  exact Hc.
Qed.

Lemma top_heads_breakdown top :
  finite_values es -> py_max acc = inr top ->
  heads (top_entry top) (format_items (sorted_desc acc)).
Proof.
  intros Hfin Hmax.
  pose proof (sorted_desc_head acc top (accumulate_numbers es Hfin) Hmax)
    as Hhd.
  rewrite breakdown_map.
  destruct (sorted_desc acc) as [|it rest]; [discriminate|].
  simpl in Hhd. inversion Hhd; subst it.
  split; [reflexivity|].
  intros default. simpl. rewrite cell_eqb_refl. reflexivity.
Qed.

Lemma top_first_maximum top :
  finite_values es -> py_max acc = inr top ->
  first_maximum es (top_entry top).
Proof.
  intros Hfin Hmax.
  pose proof (accumulate_numbers es Hfin) as Hnum.
  destruct (py_max_spec acc top Hnum Hmax) as (pre & post & Hs & Hpre & _).
  destruct top as [k v]. simpl in *.
  assert (Hv : v = summed_revenue k es)
    by (apply accumulate_value; rewrite Hs; apply in_elt).
  unfold first_maximum. simpl. split; [rewrite Hv; reflexivity|]. split.
  - intros key Hkey.
    assert (Hin : In key (map fst acc))
      by (apply accumulate_keys; right; exact Hkey).
    apply in_map_iff in Hin. destruct Hin as ([k' v'] & Hk' & Hin).
    simpl in Hk'. subst k'.
    rewrite <- Hv, <- (accumulate_value es key v' Hin).
    apply (py_max_greatest acc (k, v) Hnum Hmax (key, v') Hin).
  - assert (Hkeys : map fst acc = map fst pre ++ k :: map fst post)
      by (rewrite Hs, map_app; reflexivity).
    destruct (accumulate_first_seen es _ _ _ Hkeys)
      as (es1 & x & es2 & Hes & Hbefore).
    exists es1, x, es2. split; [exact Hes|].
    intros e He. specialize (Hbefore e He).
    apply in_map_iff in Hbefore. destruct Hbefore as ([k' v'] & Hk' & Hin).
    simpl in Hk'. subst k'.
    assert (Hacc : In (fst e, v') acc)
      by (rewrite Hs; apply in_or_app; left; exact Hin).
    rewrite <- Hv, <- (accumulate_value es (fst e) v' Hacc).
    apply (Hpre (fst e, v') Hin).
Qed.

End OneGrouping.

(* ------------------------------------------------------------------ *)
(** * When the aggregator succeeds *)

Section Success.

Variable E : Env.

Lemma mapM_all {A B} (f : A -> comp B) xs :
  (forall x, In x xs -> succeeds (f x) = true) ->
  exists ys, mapM f xs = inr ys.
Proof.
  intros H. apply succeeds_inr. rewrite mapM_succeeds.
  apply forallb_forall, H.
Qed.

Lemma mapM_each {A B} (f : A -> comp B) xs ys x :
  mapM f xs = inr ys -> In x xs -> succeeds (f x) = true.
Proof.
  intros H Hx.
  assert (Hs : succeeds (mapM f xs) = true) by (rewrite H; reflexivity).
  rewrite mapM_succeeds in Hs.
  apply (proj1 (forallb_forall _ _) Hs x Hx).
Qed.

Lemma entries_each col rows es row :
  entries E col rows = inr es -> In row rows ->
  succeeds (getitem row col) = true.
Proof.
  intros H Hrow. apply (mapM_each _ _ _ _ H) in Hrow.
  unfold entry in Hrow. destruct (getitem row col); [discriminate|].
  reflexivity.
Qed.

Lemma complete_row_iff row :
  complete_row E row = true
  <-> succeeds (row_revenue E row) = true
      /\ succeeds (row_units E row) = true
      /\ succeeds (getitem row "Region") = true
      /\ succeeds (getitem row "Product") = true
      /\ succeeds (getitem row "Salesperson") = true.
Proof. unfold complete_row. rewrite !andb_true_iff. tauto. Qed.

Lemma entries_all col rows :
  (forall row, In row rows ->
     succeeds (getitem row col) = true
     /\ succeeds (row_revenue E row) = true) ->
  exists es, entries E col rows = inr es.
Proof.
  intros H. apply mapM_all. intros row Hrow.
  destruct (H row Hrow) as [Hk Hr]. unfold entry.
  destruct (getitem row col); [discriminate|].
  destruct (row_revenue E row); [discriminate|]. reflexivity.
Qed.

Lemma accumulate_max es :
  es <> [] -> exists top, py_max (accumulate es []) = inr top.
Proof.
  intros Hne. destruct es as [|e es']; [congruence|].
  assert (Hin : In (fst e) (map fst (accumulate (e :: es') [])))
    by (apply accumulate_keys; right; left; reflexivity).
  destruct (accumulate (e :: es') []) as [|it rest]; [contradiction|].
  simpl. eauto.
Qed.

Lemma entries_nonempty col rows es :
  entries E col rows = inr es -> rows <> [] -> es <> [].
Proof.
  intros H Hne. apply mapM_inr, Forall2_length in H.
  destruct rows; [congruence|]. destruct es; discriminate.
Qed.

(** Complete rows, at least one of them, and a unit total that can be
    printed are enough. *)
Lemma statistics_succeeds file_path rows :
  load_rows E file_path = inr rows -> rows <> [] ->
  forallb (complete_row E) rows = true ->
  printable_units E rows = true ->
  exists stats, statistics E file_path = inr stats.
Proof.
  intros Hload Hne Hall Hprint.
  assert (Hrow : forall row, In row rows -> complete_row E row = true)
    by (apply forallb_forall; exact Hall).
  assert (Hrev : exists revenues, mapM (row_revenue E) rows = inr revenues).
  { apply mapM_all. intros row H. apply Hrow, complete_row_iff in H. tauto. }
  assert (Hunits : exists units, mapM (row_units E) rows = inr units).
  { apply mapM_all. intros row H. apply Hrow, complete_row_iff in H. tauto. }
  assert (Hreg : exists es, entries E "Region" rows = inr es).
  { apply entries_all. intros row H. apply Hrow, complete_row_iff in H. tauto. }
  assert (Hprod : exists es, entries E "Product" rows = inr es).
  { apply entries_all. intros row H. apply Hrow, complete_row_iff in H. tauto. }
  assert (Hper : exists es, entries E "Salesperson" rows = inr es).
  { apply entries_all. intros row H. apply Hrow, complete_row_iff in H. tauto. }
  destruct Hrev as [revenues Hrev], Hunits as [units Hunits],
    Hreg as [regs Hreg], Hprod as [prods Hprod], Hper as [pers Hper].
  destruct (accumulate_max regs (entries_nonempty _ _ _ Hreg Hne)) as [tr Htr].
  destruct (accumulate_max prods (entries_nonempty _ _ _ Hprod Hne)) as [tp Htp].
  destruct (accumulate_max pers (entries_nonempty _ _ _ Hper Hne)) as [ts Hts].
  unfold statistics.
  rewrite (proj2 (open_csv_inr E _ _) Hload); simpl. rewrite Hrev; simpl. rewrite Hunits; simpl.
  rewrite !revenue_by_entries, Hreg, Hprod, Hper; simpl.
  rewrite Htr, Htp, Hts; simpl.
  unfold printable_units in Hprint. rewrite Hunits in Hprint.
  destruct rows as [|row rows']; [congruence|]. simpl.
  unfold json_dumps. simpl. rewrite Hprint. eauto.
Qed.

Lemma statistics_printable file_path rows stats :
  load_rows E file_path = inr rows ->
  statistics E file_path = inr stats ->
  printable_units E rows = true.
Proof.
  intros Hload H. pose proof (statistics_prints E _ _ H) as Hp.
  apply statistics_inr in H.
  destruct H as (rows' & revenues & units & regions & products & people
                 & tr & tp & ts & avg & Hl & _ & Hunits & _ & _ & _ & _ & _
                 & _ & _ & ->).
  rewrite Hload in Hl. inversion Hl; subst rows'.
  unfold printable_units. rewrite Hunits. exact Hp.
Qed.

(** Complete rows whose unit total is too long to print: every statement
    up to [json.dumps] succeeds, and [json.dumps] raises. *)
Lemma statistics_unprintable file_path rows :
  load_rows E file_path = inr rows -> rows <> [] ->
  forallb (complete_row E) rows = true ->
  printable_units E rows = false ->
  statistics E file_path = inl IntDigitsError.
Proof.
  intros Hload Hne Hall Hprint.
  assert (Hrow : forall row, In row rows -> complete_row E row = true)
    by (apply forallb_forall; exact Hall).
  assert (Hrev : exists revenues, mapM (row_revenue E) rows = inr revenues).
  { apply mapM_all. intros row H. apply Hrow, complete_row_iff in H. tauto. }
  assert (Hunits : exists units, mapM (row_units E) rows = inr units).
  { apply mapM_all. intros row H. apply Hrow, complete_row_iff in H. tauto. }
  assert (Hreg : exists es, entries E "Region" rows = inr es).
  { apply entries_all. intros row H. apply Hrow, complete_row_iff in H. tauto. }
  assert (Hprod : exists es, entries E "Product" rows = inr es).
  { apply entries_all. intros row H. apply Hrow, complete_row_iff in H. tauto. }
  assert (Hper : exists es, entries E "Salesperson" rows = inr es).
  { apply entries_all. intros row H. apply Hrow, complete_row_iff in H. tauto. }
  destruct Hrev as [revenues Hrev], Hunits as [units Hunits],
    Hreg as [regs Hreg], Hprod as [prods Hprod], Hper as [pers Hper].
  destruct (accumulate_max regs (entries_nonempty _ _ _ Hreg Hne)) as [tr Htr].
  destruct (accumulate_max prods (entries_nonempty _ _ _ Hprod Hne)) as [tp Htp].
  destruct (accumulate_max pers (entries_nonempty _ _ _ Hper Hne)) as [ts Hts].
  unfold statistics.
  rewrite (proj2 (open_csv_inr E _ _) Hload); simpl. rewrite Hrev; simpl. rewrite Hunits; simpl.
  rewrite !revenue_by_entries, Hreg, Hprod, Hper; simpl.
  rewrite Htr, Htp, Hts; simpl.
  unfold printable_units in Hprint. rewrite Hunits in Hprint.
  destruct rows as [|row rows']; [congruence|]. simpl.
  unfold json_dumps. simpl. rewrite Hprint. reflexivity.
Qed.

(** And nothing less will do. *)
Lemma statistics_complete file_path rows stats :
  load_rows E file_path = inr rows ->
  statistics E file_path = inr stats ->
  rows <> [] /\ forallb (complete_row E) rows = true.
Proof.
  intros Hload H. apply statistics_inr in H.
  destruct H as (rows' & revenues & units & regions & products & people
                 & tr & tp & ts & avg & Hl & Hrev & Hunits & Hreg & Hprod
                 & Hper & _ & _ & _ & Havg & _).
  rewrite Hload in Hl. inversion Hl; subst rows'. split.
  - intros ->. discriminate.
  - apply forallb_forall. intros row Hrow. apply complete_row_iff.
    apply revenue_by_inr in Hreg, Hprod, Hper.
    destruct Hreg as (es1 & He1 & _), Hprod as (es2 & He2 & _),
      Hper as (es3 & He3 & _).
    repeat split.
    + eapply mapM_each; eauto.
    + eapply mapM_each; eauto.
    + eapply entries_each; eauto.
    + eapply entries_each; eauto.
    + eapply entries_each; eauto.
Qed.

(** From a successful run on rows with finite revenues: the entries each
    grouping loop read, and the dict it built from them. *)
Lemma grouping_inr col rows acc :
  revenue_by E col rows [] = inr acc ->
  forallb (finite_revenue E) rows = true ->
  exists es,
    entries E col rows = inr es /\ acc = accumulate es []
    /\ finite_values es.
Proof.
  intros H Hfin. apply revenue_by_inr in H.
  destruct H as (es & Hes & Hacc & _).
  exists es. repeat split; auto. eapply entries_finite; eauto.
Qed.

End Success.

(* ------------------------------------------------------------------ *)
(** * Whole amounts: exact sums

    Integers below [2^53] are binary64 numbers, and their sums and
    differences that stay below [2^53] are computed without rounding. The
    proof follows [binary_normalize]: an integer of [d] bits is stored with
    its mantissa shifted to 53 bits, and rounding a shifted mantissa only
    moves the shift. *)

Section WholeAmounts.

Local Open Scope Z_scope.






















(** ** The two sums and the format on whole amounts *)










End WholeAmounts.

(* ------------------------------------------------------------------ *)
(** * Reading a formatted total back *)
















(* ------------------------------------------------------------------ *)
(** * Properties of the report *)

Section TotalRevenue.




(** Revenues with a fractional part are rounded when they are read and
    again when they are added, and the two summations need not agree on
    the outcome: the revenues 0.001, 0.008 and 0.006 (decimal sum 0.015)
    make a total of [$0.02] under the running total and of [$0.01] under
    the compensated sum. *)
Lemma fractional_total_depends_on_the_sum :
  let revenues := [(1 / 1000)%float; (8 / 1000)%float; (6 / 1000)%float] in
  fmt_money (py_sum (wide_env false []) revenues) = "$0.02"
  /\ fmt_money (py_sum (wide_env true []) revenues) = "$0.01".
Proof. split; vm_compute; reflexivity. Qed.




End TotalRevenue.

Section TopPerformers.

(** C2. For every dataset whose rows hold revenues that parse to finite
    numbers, the [top_region], [top_product] and [top_salesperson] that
    [calculate_statistics] reports each have a summed revenue that is not
    less than that of any other key of their grouping; among the keys that
    reach this maximum each is the one seen first in row order. A report
    is produced whenever the dataset is non-empty, its rows are complete
    and the total of their units is not too long to print. *)
Theorem top_performers_are_first_maxima
  (E : Env) (file_path : string) (rows : list Row) :
  load_rows E file_path = inr rows ->
  forallb (finite_revenue E) rows = true ->
  (forall stats,
     calculate_statistics E file_path = Success stats ->
     exists regions products people,
       entries E "Region" rows = inr regions
       /\ first_maximum regions (top_region stats)
       /\ entries E "Product" rows = inr products
       /\ first_maximum products (top_product stats)
       /\ entries E "Salesperson" rows = inr people
       /\ first_maximum people (top_salesperson stats))
  /\ (rows <> [] -> forallb (complete_row E) rows = true ->
      printable_units E rows = true ->
      exists stats, calculate_statistics E file_path = Success stats).
Proof.
  intros Hload Hfin. split.
  - intros stats H. apply calculate_statistics_success in H.
    apply statistics_inr in H.
    destruct H as (rows' & revenues & units & regions & products & people
                   & tr & tp & ts & avg & Hl & _ & _ & Hreg & Hprod & Hper
                   & Htr & Htp & Hts & _ & ->).
    rewrite Hload in Hl. inversion Hl; subst rows'.
    destruct (grouping_inr E _ _ _ Hreg Hfin) as (es1 & He1 & -> & Hf1).
    destruct (grouping_inr E _ _ _ Hprod Hfin) as (es2 & He2 & -> & Hf2).
    destruct (grouping_inr E _ _ _ Hper Hfin) as (es3 & He3 & -> & Hf3).
    exists es1, es2, es3. simpl.
    split; [exact He1|]. split; [exact (top_first_maximum es1 tr Hf1 Htr)|].
    split; [exact He2|]. split; [exact (top_first_maximum es2 tp Hf2 Htp)|].
    split; [exact He3|]. exact (top_first_maximum es3 ts Hf3 Hts).
  - intros Hne Hall Hprint.
    destruct (statistics_succeeds E file_path rows Hload Hne Hall Hprint)
      as [stats H].
    exists stats. apply calculate_statistics_success, H.
Qed.

Lemma top_performers_are_first_maxima_witness :
  exists stats,
    calculate_statistics (sample_env tied_sales) "sales.csv" = Success stats
    /\ name (top_region stats) = Some "East"
    /\ exists regions products people,
         entries (sample_env tied_sales) "Region" tied_sales = inr regions
         /\ first_maximum regions (top_region stats)
         /\ entries (sample_env tied_sales) "Product" tied_sales
            = inr products
         /\ first_maximum products (top_product stats)
         /\ entries (sample_env tied_sales) "Salesperson" tied_sales
            = inr people
         /\ first_maximum people (top_salesperson stats).
Proof.
  eexists. split; [reflexivity|]. split; [reflexivity|].
  apply (top_performers_are_first_maxima (sample_env tied_sales)
           "sales.csv" tied_sales); reflexivity.
Defined.

End TopPerformers.

Section Breakdowns.

(** C3, as stated, fails: two regions with the same revenue stand next to
    each other in the breakdown, and neither sum is greater than the
    other. *)
Lemma tied_regions_are_not_strictly_descending :
  exists stats regions,
    calculate_statistics (sample_env tied_sales) "sales.csv" = Success stats
    /\ entries (sample_env tied_sales) "Region" tied_sales = inr regions
    /\ region_breakdown stats = [(Some "East", "$50.00"); (Some "West", "$50.00")]
    /\ ~ strictly_descending regions (region_breakdown stats).
Proof.
  do 2 eexists.
  split; [reflexivity|]. split; [reflexivity|]. split; [reflexivity|].
  intros H.
  specialize (H [] (Some "East") "$50.00" (Some "West") "$50.00" []
                eq_refl).
  vm_compute in H. discriminate.
Qed.

(** C3, amended. In every successful output for a dataset whose revenues
    are finite numbers, each of the three breakdowns lists every key of
    its grouping with its summed revenue, in descending order of the sums:
    of two neighbouring entries the later sum is less than or equal to the
    earlier one (equal sums do occur). *)
Theorem breakdowns_are_descending
  (E : Env) (file_path : string) (rows : list Row) (stats : Stats) :
  load_rows E file_path = inr rows ->
  forallb (finite_revenue E) rows = true ->
  calculate_statistics E file_path = Success stats ->
  exists regions products people,
    entries E "Region" rows = inr regions
    /\ shows_sums regions (region_breakdown stats)
    /\ weakly_descending regions (region_breakdown stats)
    /\ entries E "Product" rows = inr products
    /\ shows_sums products (product_breakdown stats)
    /\ weakly_descending products (product_breakdown stats)
    /\ entries E "Salesperson" rows = inr people
    /\ shows_sums people (salesperson_breakdown stats)
    /\ weakly_descending people (salesperson_breakdown stats).
Proof.
  intros Hload Hfin H. apply calculate_statistics_success in H.
  apply statistics_inr in H.
  destruct H as (rows' & revenues & units & regions & products & people
                 & tr & tp & ts & avg & Hl & _ & _ & Hreg & Hprod & Hper
                 & _ & _ & _ & _ & ->).
  rewrite Hload in Hl. inversion Hl; subst rows'.
  destruct (grouping_inr E _ _ _ Hreg Hfin) as (es1 & He1 & -> & Hf1).
  destruct (grouping_inr E _ _ _ Hprod Hfin) as (es2 & He2 & -> & Hf2).
  destruct (grouping_inr E _ _ _ Hper Hfin) as (es3 & He3 & -> & Hf3).
  exists es1, es2, es3. simpl.
  split; [exact He1|]. split; [apply breakdown_shows_sums|].
  split; [apply breakdown_weakly_descending, Hf1|].
  split; [exact He2|]. split; [apply breakdown_shows_sums|].
  split; [apply breakdown_weakly_descending, Hf2|].
  split; [exact He3|]. split; [apply breakdown_shows_sums|].
  apply breakdown_weakly_descending, Hf3.
Qed.

Lemma breakdowns_are_descending_witness :
  exists stats,
    calculate_statistics (sample_env example_sales) "sales.csv"
    = Success stats
    /\ exists regions products people,
       entries (sample_env example_sales) "Region" example_sales
       = inr regions
    /\ shows_sums regions (region_breakdown stats)
    /\ weakly_descending regions (region_breakdown stats)
    /\ entries (sample_env example_sales) "Product" example_sales
       = inr products
    /\ shows_sums products (product_breakdown stats)
    /\ weakly_descending products (product_breakdown stats)
    /\ entries (sample_env example_sales) "Salesperson" example_sales
       = inr people
    /\ shows_sums people (salesperson_breakdown stats)
    /\ weakly_descending people (salesperson_breakdown stats).
Proof.
  eexists. split; [reflexivity|].
  apply (breakdowns_are_descending (sample_env example_sales) "sales.csv"
           example_sales); reflexivity.
Defined.

(** The condition on the revenues cannot be dropped: next to a [nan] sum
    the breakdown is in no order. *)
Remark nan_revenue_breakdown_is_unordered :
  exists stats regions,
    calculate_statistics (sample_env nan_sales) "sales.csv" = Success stats
    /\ entries (sample_env nan_sales) "Region" nan_sales = inr regions
    /\ ~ weakly_descending regions (region_breakdown stats).
Proof.
  do 2 eexists. split; [reflexivity|]. split; [reflexivity|].
  intros H.
  specialize (H [] (Some "a") "$1.00" (Some "b") "$nan"
                [(Some "c", "$2.00")] eq_refl).
  vm_compute in H. discriminate.
Qed.

(** C10, as stated, fails: with a revenue that parses to [nan] no
    comparison with the sum of that region holds, [sorted] leaves the
    regions in the order a, b, c in which the loop met them, and [max]
    picks c. *)
Lemma nan_revenue_top_region_is_not_first :
  exists stats,
    calculate_statistics (sample_env nan_sales) "sales.csv" = Success stats
    /\ top_region stats = {| name := Some "c"; revenue := "$2.00" |}
    /\ region_breakdown stats
       = [(Some "a", "$1.00"); (Some "b", "$nan"); (Some "c", "$2.00")]
    /\ ~ heads (top_region stats) (region_breakdown stats).
Proof.
  eexists.
  split; [reflexivity|]. split; [reflexivity|]. split; [reflexivity|].
  intros [H _]. vm_compute in H. discriminate.
Qed.

(** C10, amended. In every successful output for a dataset whose revenues
    are finite numbers the report is consistent: the name of [top_region]
    is the first key of [region_breakdown] and its revenue string is the
    value the breakdown holds for that key; likewise for products and
    salespeople. *)
Theorem top_entries_head_the_breakdowns
  (E : Env) (file_path : string) (rows : list Row) (stats : Stats) :
  load_rows E file_path = inr rows ->
  forallb (finite_revenue E) rows = true ->
  calculate_statistics E file_path = Success stats ->
  heads (top_region stats) (region_breakdown stats)
  /\ heads (top_product stats) (product_breakdown stats)
  /\ heads (top_salesperson stats) (salesperson_breakdown stats).
Proof.
  intros Hload Hfin H. apply calculate_statistics_success in H.
  apply statistics_inr in H.
  destruct H as (rows' & revenues & units & regions & products & people
                 & tr & tp & ts & avg & Hl & _ & _ & Hreg & Hprod & Hper
                 & Htr & Htp & Hts & _ & ->).
  rewrite Hload in Hl. inversion Hl; subst rows'.
  destruct (grouping_inr E _ _ _ Hreg Hfin) as (es1 & He1 & -> & Hf1).
  destruct (grouping_inr E _ _ _ Hprod Hfin) as (es2 & He2 & -> & Hf2).
  destruct (grouping_inr E _ _ _ Hper Hfin) as (es3 & He3 & -> & Hf3).
  simpl.
  split; [exact (top_heads_breakdown es1 tr Hf1 Htr)|].
  split; [exact (top_heads_breakdown es2 tp Hf2 Htp)|].
  exact (top_heads_breakdown es3 ts Hf3 Hts).
Qed.

Lemma top_entries_head_the_breakdowns_witness :
  exists stats,
    calculate_statistics (sample_env tied_sales) "sales.csv" = Success stats
    /\ heads (top_region stats) (region_breakdown stats)
    /\ heads (top_product stats) (product_breakdown stats)
    /\ heads (top_salesperson stats) (salesperson_breakdown stats).
Proof.
  eexists. split; [reflexivity|].
  apply (top_entries_head_the_breakdowns (sample_env tied_sales) "sales.csv"
           tied_sales); reflexivity.
Defined.

End Breakdowns.

Section Errors.

(** C4, as stated, fails: on a dataset without rows the error that
    [calculate_statistics] reports is the one [max] raises on the empty
    region dict, not a division by zero; the average is never computed. *)
Lemma no_rows_error_is_not_a_zero_division :
  calculate_statistics (sample_env []) "sales.csv"
  = Failure "Failed to calculate statistics: " MaxEmptyError
  /\ calculate_statistics (sample_env []) "sales.csv"
     <> Failure "Failed to calculate statistics: " ZeroDivisionError.
Proof. split; [reflexivity | discriminate]. Qed.

(** C4, amended. On a dataset with zero rows [calculate_statistics] fails
    when it looks for the top region: [max] of the empty dict raises, and
    the error is returned as a structured error value. *)
Theorem no_rows_fail_at_max (E : Env) (file_path : string) :
  load_rows E file_path = inr [] ->
  calculate_statistics E file_path
  = Failure "Failed to calculate statistics: " MaxEmptyError.
Proof.
  intros Hload. unfold calculate_statistics, statistics.
  rewrite (proj2 (open_csv_inr E _ _) Hload). reflexivity.
Qed.

Lemma no_rows_fail_at_max_witness :
  load_rows (sample_env []) "sales.csv" = inr []
  /\ calculate_statistics (sample_env []) "sales.csv"
     = Failure "Failed to calculate statistics: " MaxEmptyError.
Proof.
  split; [reflexivity|].
  apply (no_rows_fail_at_max (sample_env []) "sales.csv"). reflexivity.
Defined.

(** No dataset makes the average divide by zero: whatever the tool
    reports, it is not a [ZeroDivisionError]. *)
Lemma mapM_inl {A B} (f : A -> comp B) xs e :
  mapM f xs = inl e -> exists x, In x xs /\ f x = inl e.
Proof.
  induction xs as [|x xs IH]; simpl; intros H; [discriminate|].
  destruct (f x) as [e'|y] eqn:Hx; simpl in H.
  - inversion H; subst. eauto.
  - destruct (mapM f xs) as [e'|ys]; simpl in H; [|discriminate].
    inversion H; subst. destruct (IH eq_refl) as (x' & Hin & Hx').
    eauto.
Qed.

Lemma getitem_inl row col e :
  getitem row col = inl e -> e <> ZeroDivisionError.
Proof.
  unfold getitem. destruct (assoc col (fields row)); intros H;
    inversion H; discriminate.
Qed.

Lemma row_revenue_inl (E : Env) row e :
  row_revenue E row = inl e -> e <> ZeroDivisionError.
Proof.
  unfold row_revenue. destruct (getitem row "Revenue") as [e'|c] eqn:Hg;
    simpl; intros H.
  - inversion H; subst. eapply getitem_inl, Hg.
  - unfold py_float in H. destruct c as [str|]; [|inversion H; discriminate].
    destruct (float_of_str E str); inversion H; discriminate.
Qed.

Lemma row_units_inl (E : Env) row e :
  row_units E row = inl e -> e <> ZeroDivisionError.
Proof.
  unfold row_units. destruct (getitem row "Units_Sold") as [e'|c] eqn:Hg;
    simpl; intros H.
  - inversion H; subst. eapply getitem_inl, Hg.
  - unfold py_int in H. destruct c as [str|]; [|inversion H; discriminate].
    destruct (int_of_str E str); inversion H; discriminate.
Qed.

Lemma revenue_by_inl (E : Env) col rows e :
  revenue_by E col rows [] = inl e -> e <> ZeroDivisionError.
Proof.
  rewrite revenue_by_entries. unfold entries.
  destruct (mapM (entry E col) rows) as [e'|es] eqn:Hm; simpl; intros H;
    [|discriminate].
  inversion H; subst e'. apply mapM_inl in Hm.
  destruct Hm as (row & _ & Hrow). unfold entry in Hrow.
  destruct (getitem row col) as [e'|key] eqn:Hg; simpl in Hrow.
  - inversion Hrow; subst. eapply getitem_inl, Hg.
  - destruct (row_revenue E row) as [e'|v] eqn:Hr; simpl in Hrow;
      [|discriminate].
    inversion Hrow; subst. eapply row_revenue_inl, Hr.
Qed.

Lemma zero_division_is_unreachable (E : Env) (file_path prefix : string) :
  calculate_statistics E file_path <> Failure prefix ZeroDivisionError.
Proof.
  unfold calculate_statistics, try_except.
  destruct (statistics E file_path) as [e|stats] eqn:H; [|discriminate].
  intros Heq. inversion Heq; subst e. clear Heq. revert H.
  unfold statistics, open_csv.
  destruct (load_rows E file_path) as [detail|rows]; simpl; [discriminate|].
  destruct (mapM (row_revenue E) rows) as [e|revenues] eqn:Hstep1; simpl.
  { intros H. inversion H; subst. apply mapM_inl in Hstep1.
    destruct Hstep1 as (row & _ & Hrow). now apply row_revenue_inl in Hrow. }
  destruct (mapM (row_units E) rows) as [e|units] eqn:Hstep2; simpl.
  { intros H. inversion H; subst. apply mapM_inl in Hstep2.
    destruct Hstep2 as (row & _ & Hrow). now apply row_units_inl in Hrow. }
  destruct (revenue_by E "Region" rows []) as [e|regions] eqn:Hstep3; simpl.
  { intros H. inversion H; subst. now apply revenue_by_inl in Hstep3. }
  destruct (revenue_by E "Product" rows []) as [e|products] eqn:Hstep4; simpl.
  { intros H. inversion H; subst. now apply revenue_by_inl in Hstep4. }
  destruct (revenue_by E "Salesperson" rows []) as [e|people] eqn:Hstep5;
    simpl.
  { intros H. inversion H; subst. now apply revenue_by_inl in Hstep5. }
  destruct rows as [|row rows].
  - simpl in Hstep3. inversion Hstep3; subst regions. simpl. discriminate.
  - destruct (py_max regions) as [e|tr] eqn:Hstep6; simpl.
    { destruct regions; simpl in Hstep6; inversion Hstep6; discriminate. }
    destruct (py_max products) as [e|tp] eqn:Hstep7; simpl.
    { destruct products; simpl in Hstep7; inversion Hstep7; discriminate. }
    destruct (py_max people) as [e|ts] eqn:Hstep8; simpl.
    { destruct people; simpl in Hstep8; inversion Hstep8; discriminate. }
    unfold json_dumps. simpl.
    destruct (int_prints E _); discriminate.
Qed.

(** C5. For a readable file with a header and no data row,
    [read_sales_csv] returns an error value whose message contains the
    word "empty", and no summary. *)
Theorem empty_file_is_reported (E : Env) (file_path : string) :
  load_rows E file_path = inr [] ->
  exists message,
    read_sales_csv E file_path = FailureMsg message
    /\ contains "empty" message = true
    /\ forall summary, read_sales_csv E file_path <> Success summary.
Proof.
  intros Hload. exists "CSV file is empty".
  unfold read_sales_csv. rewrite (proj2 (open_csv_inr E _ _) Hload).
  split; [reflexivity|]. split; [reflexivity | discriminate].
Qed.

Lemma empty_file_is_reported_witness :
  load_rows (sample_env []) "sales.csv" = inr []
  /\ exists message,
       read_sales_csv (sample_env []) "sales.csv" = FailureMsg message
       /\ contains "empty" message = true
       /\ forall summary,
            read_sales_csv (sample_env []) "sales.csv" <> Success summary.
Proof.
  split; [reflexivity|].
  apply (empty_file_is_reported (sample_env []) "sales.csv"). reflexivity.
Defined.




(** A line shorter than the header is another matter. Its row has every
    key, with [None] for the cells that are missing: [float] and [int]
    reject [None], but as a group key [None] is as good as a string. *)
Remark short_line_is_grouped_under_none :
  exists stats,
    calculate_statistics (sample_env [short_line]) "sales.csv" = Success stats
    /\ top_region stats = {| name := None; revenue := "$100.00" |}.
Proof. eexists. split; reflexivity. Qed.

End Errors.

Section Loader.

(** C7. The preview of a readable file with data rows: the first five
    rows followed by the last five when there are more than ten rows, all
    rows otherwise. Of twelve rows it holds rows 1 to 5 and 8 to 12, in
    file order; of eight rows it holds all eight. *)
Theorem preview_rows (E : Env) (file_path : string) (rows : list Row) :
  load_rows E file_path = inr rows ->
  rows <> [] ->
  exists summary,
    read_sales_csv E file_path = Success summary
    /\ sample_data summary
       = (if Nat.ltb 10 (List.length rows)
          then firstn 5 rows ++ skipn (List.length rows - 5) rows
          else rows)
    /\ (forall r1 r2 r3 r4 r5 r6 r7 r8 r9 r10 r11 r12,
          rows = [r1; r2; r3; r4; r5; r6; r7; r8; r9; r10; r11; r12] ->
          sample_data summary = [r1; r2; r3; r4; r5; r8; r9; r10; r11; r12])
    /\ (List.length rows = 8 -> sample_data summary = rows).
Proof.
  intros Hload Hne. unfold read_sales_csv.
  rewrite (proj2 (open_csv_inr E _ _) Hload).
  destruct rows as [|row0 rest]; [congruence|].
  eexists. split; [reflexivity|]. cbn [sample_data].
  split; [reflexivity|]. split.
  - intros r1 r2 r3 r4 r5 r6 r7 r8 r9 r10 r11 r12 H. rewrite H. reflexivity.
  - intros H. rewrite H. reflexivity.
Qed.

Lemma preview_rows_witness :
  exists summary,
    read_sales_csv (sample_env (numbered 12)) "sales.csv" = Success summary
    /\ sample_data summary
       = (if Nat.ltb 10 (List.length (numbered 12))
          then firstn 5 (numbered 12)
               ++ skipn (List.length (numbered 12) - 5) (numbered 12)
          else numbered 12)
    /\ (forall r1 r2 r3 r4 r5 r6 r7 r8 r9 r10 r11 r12,
          numbered 12 = [r1; r2; r3; r4; r5; r6; r7; r8; r9; r10; r11; r12] ->
          sample_data summary = [r1; r2; r3; r4; r5; r8; r9; r10; r11; r12])
    /\ (List.length (numbered 12) = 8 -> sample_data summary = numbered 12).
Proof.
  apply (preview_rows (sample_env (numbered 12)) "sales.csv" (numbered 12)).
  - reflexivity.
  - discriminate.
Defined.

(** C9. [read_sales_csv] succeeds on every readable file with at least
    one data row, whatever the columns of the rows are; it fails exactly
    when the file cannot be read or has no data row. A file it accepts
    may still be rejected by [calculate_statistics]. *)
Theorem loader_checks_no_columns :
  (forall E file_path row rows,
     load_rows E file_path = inr (row :: rows) ->
     exists summary, read_sales_csv E file_path = Success summary)
  /\ (forall E file_path,
        (forall summary, read_sales_csv E file_path <> Success summary)
        <-> ((exists detail, load_rows E file_path = inl detail)
             \/ load_rows E file_path = inr []))
  /\ (exists E file_path summary e,
        read_sales_csv E file_path = Success summary
        /\ calculate_statistics E file_path
           = Failure "Failed to calculate statistics: " e).
Proof.
  split; [|split].
  - intros E file_path row rows Hload. unfold read_sales_csv.
    rewrite (proj2 (open_csv_inr E _ _) Hload). eauto.
  - intros E file_path. unfold read_sales_csv, open_csv.
    destruct (load_rows E file_path) as [detail|[|row rows]]; simpl.
    + split; [eauto | discriminate].
    + split; [auto | discriminate].
    + split.
      * intros H. exfalso. eapply H. reflexivity.
      * intros [[detail H]|H]; discriminate.
  - exists (sample_env example_rows), "sales.csv".
    do 2 eexists. split; reflexivity.
Qed.

End Loader.

Section Example.

Lemma holds_getitem row col value :
  holds row col value -> getitem row col = inr (Some value).
Proof. unfold holds, getitem. intros ->. reflexivity. Qed.

Lemma holds_revenue (E : Env) row value v :
  holds row "Revenue" value -> float_of_str E value = Some v ->
  row_revenue E row = inr v.
Proof.
  intros H Hv. unfold row_revenue. rewrite (holds_getitem _ _ _ H).
  simpl. rewrite Hv. reflexivity.
Qed.

(** C8, as stated, fails: the three rows of the example have no
    [Units_Sold] column, and [calculate_statistics] returns the error of
    the missing key. *)
Lemma example_rows_are_rejected :
  calculate_statistics (sample_env example_rows) "sales.csv"
  = Failure "Failed to calculate statistics: " (KeyError "Units_Sold").
Proof. reflexivity. Qed.

(** C8, amended. For three rows with the regions and revenues of the
    example (East 100, West 50, East 30) that also carry the other
    required columns, with units whose total is not too long to print,
    [calculate_statistics] returns a success report with
    [region_breakdown] East $130.00, West $50.00, [top_region] East with
    $130.00, and [total_revenue] $180.00, whichever summation the
    interpreter uses. *)
Theorem example_report (E : Env) (file_path : string) (r1 r2 r3 : Row) :
  load_rows E file_path = inr [r1; r2; r3] ->
  float_of_str E "100" = Some 100%float ->
  float_of_str E "50" = Some 50%float ->
  float_of_str E "30" = Some 30%float ->
  holds r1 "Region" "East" -> holds r1 "Revenue" "100" ->
  holds r2 "Region" "West" -> holds r2 "Revenue" "50" ->
  holds r3 "Region" "East" -> holds r3 "Revenue" "30" ->
  forallb (complete_row E) [r1; r2; r3] = true ->
  printable_units E [r1; r2; r3] = true ->
  exists stats,
    calculate_statistics E file_path = Success stats
    /\ region_breakdown stats
       = [(Some "East", "$130.00"); (Some "West", "$50.00")]
    /\ top_region stats = {| name := Some "East"; revenue := "$130.00" |}
    /\ total_revenue stats = "$180.00".
Proof.
  intros Hload F100 F50 F30 Hg1 Hv1 Hg2 Hv2 Hg3 Hv3 Hall Hprint.
  destruct (statistics_succeeds E file_path _ Hload ltac:(discriminate) Hall
              Hprint) as [stats Hstats].
  exists stats. split; [apply calculate_statistics_success, Hstats|].
  apply statistics_inr in Hstats.
  destruct Hstats as (rows' & revenues & units & regions & products & people
                      & tr & tp & ts & avg & Hl & Hrev & _ & Hreg & _ & _
                      & Htr & _ & _ & _ & ->).
  rewrite Hload in Hl. inversion Hl; subst rows'.
  pose proof (holds_revenue E r1 _ _ Hv1 F100) as R1.
  pose proof (holds_revenue E r2 _ _ Hv2 F50) as R2.
  pose proof (holds_revenue E r3 _ _ Hv3 F30) as R3.
  cbn [mapM] in Hrev. rewrite R1, R2, R3 in Hrev.
  cbn [revenue_by] in Hreg.
  rewrite (holds_getitem _ _ _ Hg1), (holds_getitem _ _ _ Hg2),
    (holds_getitem _ _ _ Hg3), R1, R2, R3 in Hreg.
  vm_compute in Hrev, Hreg.
  inversion Hrev; subst revenues. inversion Hreg; subst regions.
  vm_compute in Htr. inversion Htr; subst tr.
  cbn [region_breakdown top_region total_revenue].
  split; [vm_compute; reflexivity|].
  split; [vm_compute; reflexivity|].
  unfold py_sum. destruct (compensated_sum E); vm_compute; reflexivity.
Qed.

Lemma example_report_witness :
  exists stats,
    calculate_statistics (sample_env example_sales) "sales.csv"
    = Success stats
    /\ region_breakdown stats
       = [(Some "East", "$130.00"); (Some "West", "$50.00")]
    /\ top_region stats = {| name := Some "East"; revenue := "$130.00" |}
    /\ total_revenue stats = "$180.00".
Proof.
  apply (example_report (sample_env example_sales) "sales.csv"
           (sale "East" "Widget" "Ann" "100" "1")
           (sale "West" "Gadget" "Bob" "50" "2")
           (sale "East" "Widget" "Cy" "30" "3")); reflexivity.
Defined.

End Example.

(* ------------------------------------------------------------------ *)
(** * Which error is reported *)

Section ReportedError.

Variable E : Env.

Lemma mapM_first_failure {A B} (f : A -> comp B) pre x post e :
  forallb (fun a => succeeds (f a)) pre = true ->
  f x = inl e ->
  mapM f (pre ++ x :: post) = inl e.
Proof.
  intros Hpre Hx. induction pre as [|a pre IH]; simpl.
  - rewrite Hx. reflexivity.
  - simpl in Hpre. apply andb_true_iff in Hpre. destruct Hpre as [Ha Hpre].
    destruct (f a) as [e'|b]; [discriminate|]. simpl.
    rewrite (IH Hpre). reflexivity.
Qed.

(** With good revenues the only error of a grouping loop is the missing
    key of its column. *)
Lemma revenue_by_key_error col rows e :
  forallb (fun row => succeeds (row_revenue E row)) rows = true ->
  revenue_by E col rows [] = inl e -> e = KeyError col.
Proof.
  intros Hrev. rewrite revenue_by_entries. unfold entries.
  destruct (mapM (entry E col) rows) as [e'|es] eqn:Hm; simpl; intros H;
    [|discriminate].
  inversion H; subst e'. apply mapM_inl in Hm.
  destruct Hm as (row & Hin & Hrow). unfold entry in Hrow.
  apply (proj1 (forallb_forall _ _) Hrev) in Hin.
  unfold getitem in Hrow.
  destruct (assoc col (fields row)); simpl in Hrow.
  - destruct (row_revenue E row); [discriminate|]. discriminate.
  - inversion Hrow. reflexivity.
Qed.

Lemma revenue_by_missing col rows row :
  forallb (fun row => succeeds (row_revenue E row)) rows = true ->
  In row rows -> assoc col (fields row) = None ->
  revenue_by E col rows [] = inl (KeyError col).
Proof.
  intros Hrev Hin Habs.
  destruct (revenue_by E col rows []) as [e|acc] eqn:H.
  - rewrite (revenue_by_key_error col rows e Hrev H). reflexivity.
  - apply revenue_by_inr in H. destruct H as (es & Hes & _).
    pose proof (entries_each E col rows es row Hes Hin) as Hk.
    unfold getitem in Hk. rewrite Habs in Hk. discriminate.
Qed.

Lemma revenue_by_present col rows :
  forallb (fun row => succeeds (row_revenue E row)) rows = true ->
  (forall row, In row rows -> assoc col (fields row) <> None) ->
  exists acc, revenue_by E col rows [] = inr acc.
Proof.
  intros Hrev Hcol.
  destruct (entries_all E col rows) as [es Hes].
  - intros row Hin. split.
    + unfold getitem. specialize (Hcol row Hin).
      destruct (assoc col (fields row)); [reflexivity | congruence].
    + apply (proj1 (forallb_forall _ _) Hrev row Hin).
  - exists (accumulate es []). rewrite revenue_by_entries, Hes. reflexivity.
Qed.

(** X1. When the file cannot be read, both tools return an error value
    that carries the exception of the failed read, each under its own
    prefix. *)
Theorem unreadable_file_fails_both_tools (file_path detail : string) :
  load_rows E file_path = inl detail ->
  read_sales_csv E file_path
  = Failure "Failed to read CSV: " (FileError detail)
  /\ calculate_statistics E file_path
     = Failure "Failed to calculate statistics: " (FileError detail).
Proof.
  intros H.
  unfold read_sales_csv, calculate_statistics, statistics, open_csv.
  rewrite H. split; reflexivity.
Qed.

(** X2. The error that [calculate_statistics] reports is the one of the
    first row, in file order, whose revenue cannot be read: defects in
    other columns and in later rows are not looked at. *)
Theorem first_bad_revenue_is_reported
  (file_path : string) (pre post : list Row) (row : Row) (e : exn) :
  load_rows E file_path = inr (pre ++ row :: post) ->
  forallb (fun r => succeeds (row_revenue E r)) pre = true ->
  row_revenue E row = inl e ->
  calculate_statistics E file_path
  = Failure "Failed to calculate statistics: " e.
Proof.
  intros Hload Hpre Hrow. unfold calculate_statistics, statistics.
  rewrite (proj2 (open_csv_inr E _ _) Hload). simpl.
  rewrite (mapM_first_failure (row_revenue E) pre row post e Hpre Hrow).
  reflexivity.
Qed.

(** X3. When every revenue can be read, the error reported is the one of
    the first row whose units cannot be read. *)
Theorem first_bad_units_is_reported
  (file_path : string) (pre post : list Row) (row : Row) (e : exn) :
  load_rows E file_path = inr (pre ++ row :: post) ->
  forallb (fun r => succeeds (row_revenue E r)) (pre ++ row :: post) = true ->
  forallb (fun r => succeeds (row_units E r)) pre = true ->
  row_units E row = inl e ->
  calculate_statistics E file_path
  = Failure "Failed to calculate statistics: " e.
Proof.
  intros Hload Hrev Hpre Hrow. unfold calculate_statistics, statistics.
  rewrite (proj2 (open_csv_inr E _ _) Hload). simpl.
  destruct (mapM_all (row_revenue E) (pre ++ row :: post)) as [revenues Hr].
  { apply forallb_forall, Hrev. }
  rewrite Hr. simpl.
  rewrite (mapM_first_failure (row_units E) pre row post e Hpre Hrow).
  reflexivity.
Qed.

(** X4. When every revenue and every unit count can be read, a row
    without a grouping column makes the report the [KeyError] of that
    column; of several missing columns the one reported is the first among
    [Region], [Product], [Salesperson]. *)
Theorem missing_grouping_column_is_a_key_error
  (file_path : string) (rows : list Row) :
  load_rows E file_path = inr rows ->
  forallb (fun r => succeeds (row_revenue E r)) rows = true ->
  forallb (fun r => succeeds (row_units E r)) rows = true ->
  ((exists row, In row rows /\ assoc "Region" (fields row) = None) ->
   calculate_statistics E file_path
   = Failure "Failed to calculate statistics: " (KeyError "Region"))
  /\ ((forall row, In row rows -> assoc "Region" (fields row) <> None) ->
      (exists row, In row rows /\ assoc "Product" (fields row) = None) ->
      calculate_statistics E file_path
      = Failure "Failed to calculate statistics: " (KeyError "Product"))
  /\ ((forall row, In row rows -> assoc "Region" (fields row) <> None) ->
      (forall row, In row rows -> assoc "Product" (fields row) <> None) ->
      (exists row, In row rows /\ assoc "Salesperson" (fields row) = None) ->
      calculate_statistics E file_path
      = Failure "Failed to calculate statistics: " (KeyError "Salesperson")).
Proof.
  intros Hload Hrev Hunits.
  destruct (mapM_all (row_revenue E) rows) as [revenues Hr].
  { apply forallb_forall, Hrev. }
  destruct (mapM_all (row_units E) rows) as [units Hu].
  { apply forallb_forall, Hunits. }
  unfold calculate_statistics, statistics.
  rewrite (proj2 (open_csv_inr E _ _) Hload). simpl.
  rewrite Hr. simpl. rewrite Hu. simpl.
  split; [|split].
  - intros (row & Hin & Habs).
    rewrite (revenue_by_missing "Region" rows row Hrev Hin Habs).
    reflexivity.
  - intros Hreg (row & Hin & Habs).
    destruct (revenue_by_present "Region" rows Hrev Hreg) as [regs ->].
    simpl.
    rewrite (revenue_by_missing "Product" rows row Hrev Hin Habs).
    reflexivity.
  - intros Hreg Hprod (row & Hin & Habs).
    destruct (revenue_by_present "Region" rows Hrev Hreg) as [regs ->].
    destruct (revenue_by_present "Product" rows Hrev Hprod) as [prods ->].
    simpl.
    rewrite (revenue_by_missing "Salesperson" rows row Hrev Hin Habs).
    reflexivity.
Qed.

(** X5. Whatever the file holds, [calculate_statistics] never returns the
    error value of a division by zero: the average is computed only after
    [max] has found a region, and then there is a row to divide by. *)
Theorem no_zero_division_report (file_path : string) :
  reports_zero_division (calculate_statistics E file_path) = false.
Proof.
  destruct (calculate_statistics E file_path) as [stats|msg|prefix e] eqn:H;
    try reflexivity.
  destruct e; try reflexivity.
  exfalso. exact (zero_division_is_unreachable E file_path prefix H).
Qed.

End ReportedError.

Lemma unreadable_file_fails_both_tools_witness :
  read_sales_csv unreadable_env "sales.csv"
  = Failure "Failed to read CSV: "
      (FileError "[Errno 2] No such file or directory")
  /\ calculate_statistics unreadable_env "sales.csv"
     = Failure "Failed to calculate statistics: "
         (FileError "[Errno 2] No such file or directory").
Proof.
  apply (unreadable_file_fails_both_tools unreadable_env "sales.csv").
  reflexivity.
Defined.

Lemma first_bad_revenue_is_reported_witness :
  calculate_statistics (sample_env bad_sales) "sales.csv"
  = Failure "Failed to calculate statistics: " (FloatValueError "n/a").
Proof.
  apply (first_bad_revenue_is_reported (sample_env bad_sales) "sales.csv"
           [sale "East" "Widget" "Ann" "100" "one"] []
           (sale "West" "Gadget" "Bob" "n/a" "2"));
    reflexivity.
Defined.

Lemma first_bad_units_is_reported_witness :
  calculate_statistics
    (sample_env [sale "East" "Widget" "Ann" "100" "1";
                 sale "West" "Gadget" "Bob" "50" "two";
                 sale "East" "Widget" "Cy" "30" "x"]) "sales.csv"
  = Failure "Failed to calculate statistics: " (IntValueError "two").
Proof.
  apply (first_bad_units_is_reported _ "sales.csv"
           [sale "East" "Widget" "Ann" "100" "1"]
           [sale "East" "Widget" "Cy" "30" "x"]
           (sale "West" "Gadget" "Bob" "50" "two"));
    reflexivity.
Defined.

Lemma missing_grouping_column_is_a_key_error_witness :
  calculate_statistics (sample_env no_product_sales) "sales.csv"
  = Failure "Failed to calculate statistics: " (KeyError "Product").
Proof.
  apply (missing_grouping_column_is_a_key_error
           (sample_env no_product_sales) "sales.csv" no_product_sales).
  - reflexivity.
  - reflexivity.
  - reflexivity.
  - intros row [<-|[<-|[]]]; discriminate.
  - eexists. split; [right; left; reflexivity | reflexivity].
Defined.

(* ------------------------------------------------------------------ *)
(** * The two tools on the same file *)

Section SameFile.

Variable E : Env.

(** X6. A file for which [calculate_statistics] returns a report is a
    file for which [read_sales_csv] returns a summary, and the summary
    counts as many rows as the report counts transactions. *)
Theorem report_implies_summary (file_path : string) (stats : Stats) :
  calculate_statistics E file_path = Success stats ->
  exists summary,
    read_sales_csv E file_path = Success summary
    /\ total_rows summary = number_of_transactions stats.
Proof.
  intros H. apply calculate_statistics_success in H.
  apply statistics_inr in H.
  destruct H as (rows & revenues & units & regions & products & people
                 & tr & tp & ts & avg & Hl & _ & _ & _ & _ & _ & _ & _ & _
                 & Havg & ->).
  unfold read_sales_csv. rewrite (proj2 (open_csv_inr E _ _) Hl).
  destruct rows as [|row0 rest]; [discriminate|].
  eexists. split; reflexivity.
Qed.

End SameFile.

Lemma report_implies_summary_witness :
  exists stats summary,
    calculate_statistics (sample_env example_sales) "sales.csv"
    = Success stats
    /\ read_sales_csv (sample_env example_sales) "sales.csv"
       = Success summary
    /\ total_rows summary = number_of_transactions stats.
Proof.
  eexists.
  destruct (report_implies_summary (sample_env example_sales) "sales.csv"
              _ eq_refl) as [summary H].
  exists summary. split; [reflexivity | exact H].
Defined.

(* ------------------------------------------------------------------ *)
(** * Row order and the integer totals *)

Section RowOrder.

Variable E : Env.

Lemma mapM_perm {A B} (f : A -> comp B) xs xs' :
  Permutation xs xs' ->
  forall ys, mapM f xs = inr ys ->
  exists ys', mapM f xs' = inr ys' /\ Permutation ys ys'.
Proof.
  induction 1 as [|x l l' Hp IH|x y l|l l' l'' H1 IH1 H2 IH2];
    intros ys Hys.
  - exists ys. split; [exact Hys | reflexivity].
  - simpl in Hys. apply bind_inr in Hys. destruct Hys as (b & Hb & Hys).
    apply bind_inr in Hys. destruct Hys as (bs & Hbs & Hys).
    inversion Hys; subst ys.
    destruct (IH bs Hbs) as (bs' & Hbs' & Hperm).
    exists (b :: bs'). simpl. rewrite Hb, Hbs'. simpl.
    split; [reflexivity | constructor; exact Hperm].
  - simpl in Hys. apply bind_inr in Hys. destruct Hys as (b & Hb & Hys).
    apply bind_inr in Hys. destruct Hys as (t & Ht & Hys).
    apply bind_inr in Ht. destruct Ht as (a & Ha & Ht).
    apply bind_inr in Ht. destruct Ht as (bs & Hbs & Ht).
    inversion Ht; subst t. inversion Hys; subst ys.
    exists (a :: b :: bs). simpl. rewrite Ha, Hb, Hbs. simpl.
    split; [reflexivity | apply perm_swap].
  - destruct (IH1 ys Hys) as (ys' & Hys' & Hp1).
    destruct (IH2 ys' Hys') as (ys'' & Hys'' & Hp2).
    exists ys''. split; [exact Hys'' | etransitivity; eassumption].
Qed.

Lemma fold_left_Zadd xs : forall a,
  fold_left Z.add xs a = (a + fold_right Z.add 0 xs)%Z.
Proof.
  induction xs as [|x xs IH]; simpl; intros a; [lia|].
  rewrite IH. lia.
Qed.

Lemma py_sum_int_perm xs ys :
  Permutation xs ys -> py_sum_int xs = py_sum_int ys.
Proof.
  unfold py_sum_int. rewrite !fold_left_Zadd.
  induction 1; simpl; lia.
Qed.

(** X8. The integer totals do not depend on the order of the rows: if a
    file gives a report, a file with the same rows in another order gives
    a report with the same units sold and the same number of
    transactions. *)
Theorem unit_totals_ignore_row_order
  (path path' : string) (rows rows' : list Row) (stats : Stats) :
  load_rows E path = inr rows ->
  load_rows E path' = inr rows' ->
  Permutation rows rows' ->
  calculate_statistics E path = Success stats ->
  exists stats',
    calculate_statistics E path' = Success stats'
    /\ total_units_sold stats' = total_units_sold stats
    /\ number_of_transactions stats' = number_of_transactions stats.
Proof.
  intros Hload Hload' Hperm H. apply calculate_statistics_success in H.
  destruct (statistics_complete E path rows stats Hload H) as [Hne Hall].
  assert (Hne' : rows' <> []).
  { intros ->. apply Permutation_sym, Permutation_nil in Hperm.
    contradiction. }
  assert (Hall' : forallb (complete_row E) rows' = true).
  { apply forallb_forall. intros row Hrow.
    apply (proj1 (forallb_forall _ _) Hall).
    apply (Permutation_in _ (Permutation_sym Hperm) Hrow). }
  assert (Hprint' : printable_units E rows' = true).
  { pose proof (statistics_printable E path rows stats Hload H) as Hp.
    unfold printable_units in *.
    destruct (mapM (row_units E) rows) as [e|units] eqn:Hu; [discriminate|].
    destruct (mapM_perm (row_units E) rows rows' Hperm units Hu)
      as (units' & -> & Hpu).
    rewrite <- (py_sum_int_perm units units' Hpu). exact Hp. }
  destruct (statistics_succeeds E path' rows' Hload' Hne' Hall' Hprint')
    as [stats' H'].
  exists stats'. split; [apply calculate_statistics_success, H'|].
  apply statistics_inr in H. apply statistics_inr in H'.
  destruct H as (r1 & revenues & units & regions & products & people
                 & tr & tp & ts & avg & Hl & _ & Hunits & _ & _ & _ & _ & _
                 & _ & _ & ->).
  destruct H' as (r2 & revenues' & units' & regions' & products' & people'
                  & tr' & tp' & ts' & avg' & Hl' & _ & Hunits' & _ & _ & _
                  & _ & _ & _ & _ & ->).
  rewrite Hload in Hl. inversion Hl; subst r1.
  rewrite Hload' in Hl'. inversion Hl'; subst r2. simpl.
  destruct (mapM_perm (row_units E) rows rows' Hperm units Hunits)
    as (units'' & Hu & Hp).
  rewrite Hunits' in Hu. inversion Hu; subst units''.
  split.
  - symmetry. apply py_sum_int_perm, Hp.
  - symmetry. apply Permutation_length, Hperm.
Qed.

End RowOrder.

Lemma unit_totals_ignore_row_order_witness :
  exists stats stats',
    calculate_statistics two_files_env "sales.csv" = Success stats
    /\ calculate_statistics two_files_env "reversed.csv" = Success stats'
    /\ total_units_sold stats' = total_units_sold stats
    /\ number_of_transactions stats' = number_of_transactions stats.
Proof.
  eexists.
  destruct (unit_totals_ignore_row_order two_files_env
              "sales.csv" "reversed.csv" example_sales (rev example_sales)
              _ eq_refl eq_refl (Permutation_rev example_sales) eq_refl)
    as [stats' H].
  exists stats'. split; [reflexivity | exact H].
Defined.

(* ------------------------------------------------------------------ *)
(** * The breakdowns as lists of groups *)

Section Groups.

Lemma max_from_in items : forall best,
  max_from best items = best \/ In (max_from best items) items.
Proof.
  induction items as [|it rest IH]; simpl; intros best; [left; reflexivity|].
  destruct (snd best <? snd it)%float.
  - destruct (IH it) as [->|H]; auto.
  - destruct (IH best) as [->|H]; auto.
Qed.

Lemma py_max_in items m : py_max items = inr m -> In m items.
Proof.
  destruct items as [|it rest]; simpl; intros H; [discriminate|].
  inversion H; subst m.
  destruct (max_from_in rest it) as [->|Hin]; auto.
Qed.

Lemma breakdown_lists_groups es :
  lists_groups es (format_items (sorted_desc (accumulate es []))).
Proof.
  split; [|split].
  - rewrite breakdown_map, map_map. simpl. apply sorted_items_NoDup.
  - intros key. rewrite breakdown_map, map_map. simpl.
    split; intros H.
    + apply (Permutation_in _
               (Permutation_map fst (sorted_desc_perm (accumulate es []))))
        in H.
      apply accumulate_keys in H. destruct H as [[]|H]. exact H.
    + apply (Permutation_in _
               (Permutation_sym
                  (Permutation_map fst
                     (sorted_desc_perm (accumulate es []))))).
      apply accumulate_keys. right. exact H.
  - apply breakdown_shows_sums.
Qed.

Lemma top_in_breakdown es top :
  py_max (accumulate es []) = inr top ->
  In (name (top_entry top), revenue (top_entry top))
     (format_items (sorted_desc (accumulate es []))).
Proof.
  intros H. apply py_max_in in H.
  apply (Permutation_in _
           (Permutation_sym (sorted_desc_perm (accumulate es [])))) in H.
  rewrite breakdown_map.
  apply (in_map (fun kv => (fst kv, fmt_money (snd kv)))) in H.
  exact H.
Qed.

Variable E : Env.

(** X9. In every report each breakdown lists the groups of its column:
    every key that occurs in the rows, each exactly once, with the
    formatted sum of the revenues of its rows; no other key. *)
Theorem breakdowns_list_each_group_once
  (file_path : string) (rows : list Row) (stats : Stats) :
  load_rows E file_path = inr rows ->
  calculate_statistics E file_path = Success stats ->
  exists regions products people,
    entries E "Region" rows = inr regions
    /\ lists_groups regions (region_breakdown stats)
    /\ entries E "Product" rows = inr products
    /\ lists_groups products (product_breakdown stats)
    /\ entries E "Salesperson" rows = inr people
    /\ lists_groups people (salesperson_breakdown stats).
Proof.
  intros Hload H. apply calculate_statistics_success in H.
  apply statistics_inr in H.
  destruct H as (rows' & revenues & units & regions & products & people
                 & tr & tp & ts & avg & Hl & _ & _ & Hreg & Hprod & Hper
                 & _ & _ & _ & _ & ->).
  rewrite Hload in Hl. inversion Hl; subst rows'.
  apply revenue_by_inr in Hreg, Hprod, Hper.
  destruct Hreg as (es1 & He1 & -> & _), Hprod as (es2 & He2 & -> & _),
    Hper as (es3 & He3 & -> & _).
  exists es1, es2, es3. simpl.
  split; [exact He1|]. split; [apply breakdown_lists_groups|].
  split; [exact He2|]. split; [apply breakdown_lists_groups|].
  split; [exact He3|]. apply breakdown_lists_groups.
Qed.

(** X10. In every report, also one with [nan] revenues, each top entry
    is an entry of its breakdown: the breakdown holds the top name with
    the top revenue string. *)
Theorem top_entries_are_breakdown_entries
  (file_path : string) (stats : Stats) :
  calculate_statistics E file_path = Success stats ->
  In (name (top_region stats), revenue (top_region stats))
     (region_breakdown stats)
  /\ In (name (top_product stats), revenue (top_product stats))
        (product_breakdown stats)
  /\ In (name (top_salesperson stats), revenue (top_salesperson stats))
        (salesperson_breakdown stats).
Proof.
  intros H. apply calculate_statistics_success in H.
  apply statistics_inr in H.
  destruct H as (rows & revenues & units & regions & products & people
                 & tr & tp & ts & avg & _ & _ & _ & Hreg & Hprod & Hper
                 & Htr & Htp & Hts & _ & ->).
  apply revenue_by_inr in Hreg, Hprod, Hper.
  destruct Hreg as (es1 & _ & -> & _), Hprod as (es2 & _ & -> & _),
    Hper as (es3 & _ & -> & _).
  simpl. split; [|split]; apply top_in_breakdown; assumption.
Qed.

End Groups.

Lemma breakdowns_list_each_group_once_witness :
  exists stats,
    calculate_statistics (sample_env example_sales) "sales.csv"
    = Success stats
    /\ exists regions products people,
         entries (sample_env example_sales) "Region" example_sales
         = inr regions
         /\ lists_groups regions (region_breakdown stats)
         /\ entries (sample_env example_sales) "Product" example_sales
            = inr products
         /\ lists_groups products (product_breakdown stats)
         /\ entries (sample_env example_sales) "Salesperson" example_sales
            = inr people
         /\ lists_groups people (salesperson_breakdown stats).
Proof.
  eexists. split; [reflexivity|].
  apply (breakdowns_list_each_group_once (sample_env example_sales)
           "sales.csv" example_sales); reflexivity.
Defined.

Lemma top_entries_are_breakdown_entries_witness :
  exists stats,
    calculate_statistics (sample_env nan_sales) "sales.csv" = Success stats
    /\ In (name (top_region stats), revenue (top_region stats))
          (region_breakdown stats)
    /\ In (name (top_product stats), revenue (top_product stats))
          (product_breakdown stats)
    /\ In (name (top_salesperson stats), revenue (top_salesperson stats))
          (salesperson_breakdown stats).
Proof.
  eexists. split; [reflexivity|].
  apply (top_entries_are_breakdown_entries (sample_env nan_sales)
           "sales.csv"); reflexivity.
Defined.

(* ------------------------------------------------------------------ *)
(** * The preview *)

Section Preview.

Variable E : Env.

Lemma firstn_incl {A} n (l : list A) : incl (firstn n l) l.
Proof.
  intros x H. rewrite <- (firstn_skipn n l). apply in_or_app. auto.
Qed.

Lemma skipn_incl {A} n (l : list A) : incl (skipn n l) l.
Proof.
  intros x H. rewrite <- (firstn_skipn n l). apply in_or_app. auto.
Qed.

Lemma sample_rows_bounded {A} (rows : list A) :
  let sample_rows :=
    if Nat.ltb 10 (List.length rows)
    then slice_to 5 rows ++ slice_last 5 rows
    else rows in
  List.length sample_rows = Nat.min (List.length rows) 10
  /\ incl sample_rows rows.
Proof.
  unfold slice_to, slice_last. cbv zeta.
  destruct (Nat.ltb 10 (List.length rows)) eqn:Hlt.
  - apply Nat.ltb_lt in Hlt. split.
    + rewrite length_app, length_firstn, length_skipn. lia.
    + intros x Hx. apply in_app_or in Hx.
      destruct Hx as [Hx|Hx];
        [eapply firstn_incl | eapply skipn_incl]; exact Hx.
  - apply Nat.ltb_ge in Hlt. split; [lia | apply incl_refl].
Qed.

(** X11. The summary counts all rows of the file, and its preview holds
    ten rows at most: as many rows as the file has, or ten if it has
    more, each of them a row of the file. *)
Theorem preview_is_bounded
  (file_path : string) (rows : list Row) (summary : Summary) :
  load_rows E file_path = inr rows ->
  read_sales_csv E file_path = Success summary ->
  total_rows summary = List.length rows
  /\ List.length (sample_data summary) = Nat.min (List.length rows) 10
  /\ incl (sample_data summary) rows.
Proof.
  intros Hload. unfold read_sales_csv.
  rewrite (proj2 (open_csv_inr E _ _) Hload).
  destruct rows as [|row0 rest]; [discriminate|].
  intros H. inversion H; subst summary; clear H.
  split; [reflexivity|].
  exact (sample_rows_bounded (row0 :: rest)).
Qed.

End Preview.

Lemma preview_is_bounded_witness :
  exists summary,
    read_sales_csv (sample_env (numbered 12)) "sales.csv" = Success summary
    /\ total_rows summary = List.length (numbered 12)
    /\ List.length (sample_data summary)
       = Nat.min (List.length (numbered 12)) 10
    /\ incl (sample_data summary) (numbered 12).
Proof.
  eexists. split; [reflexivity|].
  apply (preview_is_bounded (sample_env (numbered 12)) "sales.csv");
    reflexivity.
Defined.

(* ------------------------------------------------------------------ *)
(** * The columns the aggregator reads *)

Section RequiredColumns.

Variable E : Env.

Lemma same_required_getitem r r' col :
  same_required r r' -> In col required_columns ->
  getitem r col = getitem r' col.
Proof. intros H Hcol. unfold getitem. rewrite (H col Hcol). reflexivity. Qed.

Lemma same_required_revenue r r' :
  same_required r r' -> row_revenue E r = row_revenue E r'.
Proof.
  intros H. unfold row_revenue.
  rewrite (same_required_getitem r r' "Revenue" H); [reflexivity|].
  simpl. auto.
Qed.

Lemma same_required_units r r' :
  same_required r r' -> row_units E r = row_units E r'.
Proof.
  intros H. unfold row_units.
  rewrite (same_required_getitem r r' "Units_Sold" H); [reflexivity|].
  simpl. auto.
Qed.

Lemma mapM_Forall2 {A B} (f : A -> comp B) xs xs' :
  Forall2 (fun x x' => f x = f x') xs xs' -> mapM f xs = mapM f xs'.
Proof.
  induction 1 as [|x x' xs xs' Hx _ IH]; simpl; [reflexivity|].
  rewrite Hx, IH. reflexivity.
Qed.

Lemma revenue_by_same_required col rows rows' :
  In col required_columns ->
  Forall2 same_required rows rows' ->
  forall acc, revenue_by E col rows acc = revenue_by E col rows' acc.
Proof.
  intros Hcol. induction 1 as [|r r' rows rows' Hr _ IH]; intros acc;
    simpl; [reflexivity|].
  rewrite (same_required_getitem r r' col Hr Hcol),
    (same_required_revenue r r' Hr).
  destruct (getitem r' col) as [e|key]; simpl; [reflexivity|].
  destruct (row_revenue E r') as [e|v]; simpl; [reflexivity|].
  apply IH.
Qed.

(** X12. [calculate_statistics] reads the columns [Revenue],
    [Units_Sold], [Region], [Product] and [Salesperson] and nothing else:
    two files whose rows agree, one by one, on these five columns get the
    same outcome, whatever other columns they hold and in whatever order
    the columns stand. *)
Theorem other_columns_are_ignored
  (path path' : string) (rows rows' : list Row) :
  load_rows E path = inr rows ->
  load_rows E path' = inr rows' ->
  Forall2 same_required rows rows' ->
  calculate_statistics E path = calculate_statistics E path'.
Proof.
  intros Hload Hload' Hsame.
  unfold calculate_statistics, statistics.
  rewrite (proj2 (open_csv_inr E _ _) Hload),
    (proj2 (open_csv_inr E _ _) Hload'). simpl.
  rewrite (mapM_Forall2 (row_revenue E) rows rows'),
    (mapM_Forall2 (row_units E) rows rows').
  - rewrite (revenue_by_same_required "Region" rows rows'),
      (revenue_by_same_required "Product" rows rows'),
      (revenue_by_same_required "Salesperson" rows rows'),
      (Forall2_length Hsame); simpl; auto 10.
  - eapply Forall2_impl; [|exact Hsame]. apply same_required_units.
  - eapply Forall2_impl; [|exact Hsame]. apply same_required_revenue.
Qed.

End RequiredColumns.

Lemma other_columns_are_ignored_witness :
  calculate_statistics annotated_env "sales.csv"
  = calculate_statistics annotated_env "annotated.csv".
Proof.
  apply (other_columns_are_ignored annotated_env "sales.csv" "annotated.csv"
           example_sales annotated_sales).
  - reflexivity.
  - reflexivity.
  - repeat constructor;
      intros col [<-|[<-|[<-|[<-|[<-|[]]]]]]; reflexivity.
Defined.

(* ------------------------------------------------------------------ *)
(** * Ties in a breakdown *)

Section Ties.

Lemma precedes_cons {A} (x y a : A) l :
  precedes x y l -> precedes x y (a :: l).
Proof.
  intros (l1 & l2 & l3 & ->). exists (a :: l1), l2, l3. reflexivity.
Qed.

Lemma precedes_head {A} (x y : A) l : In y l -> precedes x y (x :: l).
Proof.
  intros H. apply in_split in H. destruct H as (l2 & l3 & ->).
  exists [], l2, l3. reflexivity.
Qed.

Lemma precedes_cons_inv {A} (x y a : A) l :
  precedes x y (a :: l) -> (x = a /\ In y l) \/ precedes x y l.
Proof.
  intros (l1 & l2 & l3 & H). destruct l1 as [|b l1]; simpl in H.
  - inversion H; subst. left. split; [reflexivity|].
    apply in_or_app. right. left. reflexivity.
  - inversion H; subst. right. exists l1, l2, l3. reflexivity.
Qed.

Lemma precedes_rev {A} (x y : A) l :
  precedes x y (rev l) -> precedes y x l.
Proof.
  intros (l1 & l2 & l3 & H).
  apply (f_equal (@rev A)) in H. rewrite rev_involutive in H.
  exists (rev l3), (rev l2), (rev l1). rewrite H.
  rewrite rev_app_distr. simpl. rewrite rev_app_distr. simpl.
  rewrite <- !app_assoc. reflexivity.
Qed.

Lemma precedes_map {A B} (f : A -> B) (u v : B) l :
  precedes u v (map f l) ->
  exists a b, precedes a b l /\ f a = u /\ f b = v.
Proof.
  intros (l1 & l2 & l3 & H).
  apply map_eq_app in H. destruct H as (m1 & r1 & -> & _ & H).
  apply map_eq_cons in H. destruct H as (a & r2 & -> & Ha & H).
  apply map_eq_app in H. destruct H as (m2 & r3 & -> & _ & H).
  apply map_eq_cons in H. destruct H as (b & m3 & -> & Hb & _).
  exists a, b. split; [|auto]. exists m1, m2, m3. reflexivity.
Qed.

Implicit Types (x a b : cell * float) (l s : list (cell * float)).

Lemma insert_asc_in b x s : In b (insert_asc x s) -> b = x \/ In b s.
Proof.
  intros H. apply (Permutation_in _ (insert_asc_perm x s)) in H.
  destruct H as [H|H]; auto.
Qed.

(** Where a new item goes: behind items less than it, before the rest. *)
Lemma insert_asc_precedes x s : forall a b,
  precedes a b (insert_asc x s) ->
  precedes a b s
  \/ (b = x /\ (snd a <? snd x)%float = true)
  \/ (a = x /\ In b s).
Proof.
  induction s as [|y s IH]; intros a b H.
  - simpl in H. destruct H as (l1 & l2 & l3 & H).
    destruct l1 as [|? [|? ?]]; simpl in H; inversion H.
    + destruct l2; discriminate.
  - cbn [insert_asc] in H.
    destruct (snd y <? snd x)%float eqn:Hlt.
    + apply precedes_cons_inv in H. destruct H as [[-> Hb]|H].
      * apply insert_asc_in in Hb. destruct Hb as [->|Hb].
        -- right. left. split; [reflexivity | exact Hlt].
        -- left. apply precedes_head, Hb.
      * destruct (IH a b H) as [H1|[H1|[-> H1]]].
        -- left. apply precedes_cons, H1.
        -- right. left. exact H1.
        -- right. right. split; [reflexivity | right; exact H1].
    + apply precedes_cons_inv in H. destruct H as [[-> Hb]|H].
      * right. right. split; [reflexivity | exact Hb].
      * left. exact H.
Qed.

(** The sort is stable: it puts an item before another only if it is
    less, or stood before it. *)
Lemma sort_asc_stable l : forall a b,
  precedes a b (sort_asc l) ->
  (snd a <? snd b)%float = true \/ precedes a b l.
Proof.
  induction l as [|x l IH]; intros a b H.
  - destruct H as (l1 & l2 & l3 & H). destruct l1; discriminate.
  - cbn [sort_asc fold_right] in H. fold (sort_asc l) in H.
    apply insert_asc_precedes in H.
    destruct H as [H|[[-> H]|[-> H]]].
    + destruct (IH a b H) as [H1|H1]; [left; exact H1|].
      right. apply precedes_cons, H1.
    + left. exact H.
    + right. apply precedes_head.
      apply (Permutation_in _ (sort_asc_perm l) H).
Qed.

Lemma sorted_desc_stable l a b :
  precedes a b (sorted_desc l) ->
  (snd b <? snd a)%float = true \/ precedes a b l.
Proof.
  unfold sorted_desc. intros H. apply precedes_rev in H.
  apply sort_asc_stable in H. destruct H as [H|H]; [left; exact H|].
  right. apply precedes_rev. exact H.
Qed.

Lemma NoDup_app_disjoint {A} (xs ys : list A) (z : A) :
  NoDup (xs ++ ys) -> In z xs -> In z ys -> False.
Proof.
  induction xs as [|c xs IH]; simpl; intros Hnd H1 H2; [contradiction|].
  inversion Hnd as [|? ? Ha Hnd']; subst.
  destruct H1 as [->|H1].
  - apply Ha. apply in_or_app. right. exact H2.
  - exact (IH Hnd' H1 H2).
Qed.

(** The order of the dict is the order in which the rows show the keys. *)
Lemma accumulate_precedes es k1 v1 k2 v2 :
  precedes (k1, v1) (k2, v2) (accumulate es []) -> seen_before k1 k2 es.
Proof.
  intros (l1 & l2 & l3 & H).
  assert (Hkeys : map fst (accumulate es [])
                  = map fst l1 ++ k1 :: map fst (l2 ++ (k2, v2) :: l3)).
  { rewrite H, map_app. reflexivity. }
  destruct (accumulate_first_seen es _ _ _ Hkeys)
    as (es1 & x & es2 & Hes & Hbefore).
  exists es1, x, es2. split; [exact Hes|].
  intros Hin. apply in_map_iff in Hin. destruct Hin as (e & He & Hin).
  specialize (Hbefore e Hin). rewrite He in Hbefore.
  pose proof (accumulate_NoDup es [] (NoDup_nil _)) as Hnd.
  rewrite Hkeys in Hnd.
  apply (NoDup_app_disjoint _ _ k2 Hnd Hbefore).
  right. rewrite map_app. apply in_or_app. right. left. reflexivity.
Qed.

Lemma breakdown_ties es :
  ties_in_first_seen_order es
    (format_items (sorted_desc (accumulate es []))).
Proof.
  intros k1 s1 k2 s2 H. rewrite breakdown_map in H.
  apply precedes_map in H.
  destruct H as ([k1' v1] & [k2' v2] & Hp & H1 & H2).
  simpl in H1, H2. inversion H1; inversion H2; subst k1' k2'.
  assert (Hin : In (k1, v1) (sorted_desc (accumulate es []))
                /\ In (k2, v2) (sorted_desc (accumulate es []))).
  { destruct Hp as (l1 & l2 & l3 & ->). split.
    - apply in_elt.
    - apply in_or_app. right. right. apply in_elt. }
  destruct Hin as [Hin1 Hin2].
  destruct (sorted_item_value es _ _ Hin1) as [_ Hv1].
  destruct (sorted_item_value es _ _ Hin2) as [_ Hv2].
  apply sorted_desc_stable in Hp. destruct Hp as [Hp|Hp].
  - left. rewrite <- Hv1, <- Hv2. exact Hp.
  - right. eapply accumulate_precedes, Hp.
Qed.

Variable E : Env.

(** X13. In a report on rows with finite revenues, an entry stands
    before another entry of the same breakdown only if its sum is
    greater, or if its key was seen first in the rows: keys with equal
    sums keep the order in which the rows show them. *)
Theorem breakdown_ties_keep_first_seen_order
  (file_path : string) (rows : list Row) (stats : Stats) :
  load_rows E file_path = inr rows ->
  forallb (finite_revenue E) rows = true ->
  calculate_statistics E file_path = Success stats ->
  exists regions products people,
    entries E "Region" rows = inr regions
    /\ ties_in_first_seen_order regions (region_breakdown stats)
    /\ entries E "Product" rows = inr products
    /\ ties_in_first_seen_order products (product_breakdown stats)
    /\ entries E "Salesperson" rows = inr people
    /\ ties_in_first_seen_order people (salesperson_breakdown stats).
Proof.
  intros Hload Hfin H. apply calculate_statistics_success in H.
  apply statistics_inr in H.
  destruct H as (rows' & revenues & units & regions & products & people
                 & tr & tp & ts & avg & Hl & _ & _ & Hreg & Hprod & Hper
                 & _ & _ & _ & _ & ->).
  rewrite Hload in Hl. inversion Hl; subst rows'.
  apply revenue_by_inr in Hreg, Hprod, Hper.
  destruct Hreg as (es1 & He1 & -> & _), Hprod as (es2 & He2 & -> & _),
    Hper as (es3 & He3 & -> & _).
  exists es1, es2, es3. simpl.
  split; [exact He1|]. split; [apply breakdown_ties|].
  split; [exact He2|]. split; [apply breakdown_ties|].
  split; [exact He3|]. apply breakdown_ties.
Qed.

End Ties.

Lemma breakdown_ties_keep_first_seen_order_witness :
  exists stats,
    calculate_statistics (sample_env tied_sales) "sales.csv" = Success stats
    /\ region_breakdown stats
       = [(Some "East", "$50.00"); (Some "West", "$50.00")]
    /\ exists regions products people,
         entries (sample_env tied_sales) "Region" tied_sales = inr regions
         /\ ties_in_first_seen_order regions (region_breakdown stats)
         /\ entries (sample_env tied_sales) "Product" tied_sales
            = inr products
         /\ ties_in_first_seen_order products (product_breakdown stats)
         /\ entries (sample_env tied_sales) "Salesperson" tied_sales
            = inr people
         /\ ties_in_first_seen_order people (salesperson_breakdown stats).
Proof.
  eexists. split; [reflexivity|]. split; [reflexivity|].
  apply (breakdown_ties_keep_first_seen_order (sample_env tied_sales)
           "sales.csv" tied_sales); reflexivity.
Defined.

(* ------------------------------------------------------------------ *)
(** * When there is a report *)

Section Criterion.

Variable E : Env.

(** X14. For a file that can be read, [calculate_statistics] returns a
    report exactly when there is at least one row, every row is complete
    (it has the five columns, a revenue that [float] accepts and units
    that [int] accepts) and the total of the units is not too long to
    print. In every other case it returns an error value. *)
Theorem report_iff_complete_rows (file_path : string) (rows : list Row) :
  load_rows E file_path = inr rows ->
  ((exists stats, calculate_statistics E file_path = Success stats)
   <-> rows <> [] /\ forallb (complete_row E) rows = true
       /\ printable_units E rows = true)
  /\ ((exists e, calculate_statistics E file_path
                 = Failure "Failed to calculate statistics: " e)
      <-> rows = [] \/ forallb (complete_row E) rows = false
          \/ printable_units E rows = false).
Proof.
  intros Hload.
  assert (Hfwd : forall stats, statistics E file_path = inr stats ->
                 rows <> [] /\ forallb (complete_row E) rows = true
                 /\ printable_units E rows = true).
  { intros stats H.
    destruct (statistics_complete E file_path rows stats Hload H).
    repeat split; auto. eapply statistics_printable; eauto. }
  assert (Hbwd : rows <> [] -> forallb (complete_row E) rows = true ->
                 printable_units E rows = true ->
                 exists stats, statistics E file_path = inr stats).
  { intros. eapply statistics_succeeds; eauto. }
  unfold calculate_statistics, try_except.
  destruct (statistics E file_path) as [e|stats] eqn:Hs.
  - split; split.
    + intros [stats H]. discriminate.
    + intros (Hne & Hall & Hp).
      destruct (Hbwd Hne Hall Hp) as [stats H]. discriminate.
    + intros _. destruct rows as [|row rest]; [left; reflexivity|].
      right.
      destruct (forallb (complete_row E) (row :: rest)) eqn:Hall;
        [|left; reflexivity].
      right.
      destruct (printable_units E (row :: rest)) eqn:Hp; [|reflexivity].
      destruct (Hbwd ltac:(discriminate) eq_refl eq_refl) as [stats H].
      discriminate.
    + eauto.
  - destruct (Hfwd stats eq_refl) as (Hne & Hall & Hp).
    split; split.
    + intros _. repeat split; assumption.
    + eauto.
    + intros [e He]. discriminate.
    + intros [->|[Hbad|Hbad]]; congruence.
Qed.

End Criterion.

Lemma report_iff_complete_rows_witness :
  ((exists stats,
      calculate_statistics (sample_env no_product_sales) "sales.csv"
      = Success stats)
   <-> no_product_sales <> []
       /\ forallb (complete_row (sample_env no_product_sales))
            no_product_sales = true
       /\ printable_units (sample_env no_product_sales) no_product_sales
          = true)
  /\ ((exists e,
         calculate_statistics (sample_env no_product_sales) "sales.csv"
         = Failure "Failed to calculate statistics: " e)
      <-> no_product_sales = []
          \/ forallb (complete_row (sample_env no_product_sales))
               no_product_sales = false
          \/ printable_units (sample_env no_product_sales) no_product_sales
             = false).
Proof.
  apply (report_iff_complete_rows (sample_env no_product_sales)
           "sales.csv" no_product_sales).
  reflexivity.
Defined.

(* ------------------------------------------------------------------ *)
(** * The unit total *)

Section UnitTotal.

Lemma py_sum_int_whole (units : list Z) : py_sum_int units = whole_sum units.
Proof.
  unfold py_sum_int. rewrite fold_left_Zadd.
  induction units as [|u units IH]; cbn [fold_right whole_sum]; lia.
Qed.

Lemma Forall2_unique {A B} (f : A -> comp B) (xs : list A) :
  forall ys ys',
    Forall2 (fun x y => f x = inr y) xs ys ->
    Forall2 (fun x y => f x = inr y) xs ys' -> ys = ys'.
Proof.
  induction xs as [|x xs IH]; intros ys ys' H H';
    inversion H; inversion H'; subst; [reflexivity|].
  f_equal; [congruence|]. apply IH; assumption.
Qed.

(** X15. A dataset of complete rows whose unit total has more digits than
    the interpreter prints gets no report: every statement up to
    [json.dumps(stats, indent=2)] succeeds, [json.dumps] raises, and the
    tool returns the error value of that exception. *)
Theorem long_unit_total_fails_the_report
  (E : Env) (file_path : string) (rows : list Row) :
  load_rows E file_path = inr rows ->
  rows <> [] ->
  forallb (complete_row E) rows = true ->
  printable_units E rows = false ->
  calculate_statistics E file_path
  = Failure "Failed to calculate statistics: " IntDigitsError.
Proof.
  intros Hload Hne Hall Hprint.
  unfold calculate_statistics, try_except.
  rewrite (statistics_unprintable E file_path rows Hload Hne Hall Hprint).
  reflexivity.
Qed.

Lemma long_unit_total_fails_the_report_witness :
  forallb (complete_row (long_env long_sales)) long_sales = true
  /\ printable_units (long_env long_sales) long_sales = false
  /\ calculate_statistics (long_env long_sales) "sales.csv"
     = Failure "Failed to calculate statistics: " IntDigitsError.
Proof.
  split; [vm_compute; reflexivity|]. split; [vm_compute; reflexivity|].
  apply (long_unit_total_fails_the_report (long_env long_sales) "sales.csv"
           long_sales);
    [reflexivity|discriminate|vm_compute; reflexivity|vm_compute; reflexivity].
Defined.

(** X16. In every report [total_units_sold] is the sum of the
    [Units_Sold] of all rows, each read by [int], and
    [number_of_transactions] is the number of rows. *)
Theorem unit_total_is_the_sum_of_units
  (E : Env) (file_path : string) (rows : list Row) (units : list Z)
  (stats : Stats) :
  load_rows E file_path = inr rows ->
  Forall2 (fun row u => row_units E row = inr u) rows units ->
  calculate_statistics E file_path = Success stats ->
  total_units_sold stats = whole_sum units
  /\ number_of_transactions stats = List.length rows.
Proof.
  intros Hload Hunits H. apply calculate_statistics_success in H.
  apply statistics_inr in H.
  destruct H as (rows' & revenues & units' & regions & products & people
                 & tr & tp & ts & avg & Hl & _ & Hu & _ & _ & _ & _ & _
                 & _ & _ & ->).
  rewrite Hload in Hl. inversion Hl; subst rows'.
  apply mapM_inr in Hu.
  rewrite (Forall2_unique (row_units E) rows units units' Hunits Hu).
  cbn [total_units_sold number_of_transactions].
  split; [apply py_sum_int_whole|reflexivity].
Qed.

Lemma unit_total_is_the_sum_of_units_witness :
  exists stats,
    calculate_statistics (sample_env example_sales) "sales.csv"
    = Success stats
    /\ total_units_sold stats = 6%Z
    /\ number_of_transactions stats = 3.
Proof.
  eexists. split; [reflexivity|].
  apply (unit_total_is_the_sum_of_units (sample_env example_sales)
           "sales.csv" example_sales [1; 2; 3]%Z);
    [reflexivity|repeat (constructor || reflexivity)|reflexivity].
Defined.

End UnitTotal.
